(** * neuro-viz: the pipeline scripts, embedded and checked against their specification

    The repository is a set of Python scripts that sequence calls into
    SimpleITK, VTK, nibabel and matplotlib.  The embedding keeps the scripts'
    own logic (existence checks, value checks, the order in which handles are
    passed from one library call to the next, the nearest-point loop, the
    intensity normalisation) and takes the numerical filters of the wrapped
    libraries as operations of an interface.

    Conventions of the embedding
    - a Python call either returns a value or raises: [result];
    - code that touches the file system or the console is a function of a
      [world] (console output and disk), in the state-and-error monad [Py];
    - voxel intensities and scalars are exact rationals ([Q]); floating-point
      rounding and integer wrap-around of the array types are not modelled;
    - informational console lines ([INFO], [DEBUG]) are left out; the lines
      by which a function reports an error are kept. *)

From Stdlib Require Import String Ascii List Bool NArith QArith Qminmax Lqa.
From stdpp Require Import base option list gmap strings.

Local Open Scope string_scope.

(** ** Python outcomes *)

Module Python.

(** The exception classes the scripts raise or let escape, with their message. *)
Inductive exn : Type :=
| FileNotFoundError (msg : string)
| ValueError (msg : string)
| RuntimeError (msg : string)
| AttributeError (msg : string)
| IndexError (msg : string)
| ZeroDivisionError (msg : string).

Inductive result (A : Type) : Type :=
| Ok (a : A)
| Raise (e : exn).
Arguments Ok {A} a.
Arguments Raise {A} e.

Definition is_FileNotFoundError {A} (r : result A) : bool :=
  match r with Raise (FileNotFoundError _) => true | _ => false end.

Definition is_ValueError {A} (r : result A) : bool :=
  match r with Raise (ValueError _) => true | _ => false end.

Definition is_Ok {A} (r : result A) : bool :=
  match r with Ok _ => true | Raise _ => false end.

(** What a path names on disk; [F] is what a data file holds once parsed. *)
Inductive entry (F : Type) : Type :=
| File (content : F)
| Directory.
Arguments File {F} content.
Arguments Directory {F}.

Record world (F : Type) : Type := World {
  stdout : list string;
  disk : gmap string (entry F)
}.
Arguments World {F} stdout disk.
Arguments stdout {F} w.
Arguments disk {F} w.

(** State-and-error monad: the world is threaded through, also past a raise. *)
Definition Py (F A : Type) : Type := world F -> result A * world F.

Definition ret {F A} (a : A) : Py F A := fun w => (Ok a, w).

Definition bind {F A B} (c : Py F A) (k : A -> Py F B) : Py F B :=
  fun w => match c w with
           | (Ok a, w') => k a w'
           | (Raise e, w') => (Raise e, w')
           end.

Definition raise {F A} (e : exn) : Py F A := fun w => (Raise e, w).

Definition lift {F A} (r : result A) : Py F A := fun w => (r, w).

(** [str(e)] *)
Definition message (e : exn) : string :=
  match e with
  | FileNotFoundError msg | ValueError msg | RuntimeError msg
  | AttributeError msg | IndexError msg | ZeroDivisionError msg => msg
  end.

(** [try: body except Exception as e: handler(e)] *)
Definition try_except {F A} (body : Py F A) (handler : exn -> Py F A) : Py F A :=
  fun w => match body w with
           | (Ok a, w') => (Ok a, w')
           | (Raise e, w') => handler e w'
           end.

Definition print {F} (line : string) : Py F unit :=
  fun w => (Ok tt, World (stdout w ++ [line]) (disk w)).

(** [os.path.exists]: files and directories. *)
Definition os_path_exists {F} (path : string) : Py F bool :=
  fun w => (Ok (bool_decide (is_Some (disk w !! path))), w).

(** [os.path.isfile]: regular files only. *)
Definition os_path_isfile {F} (path : string) : Py F bool :=
  fun w => (Ok (match disk w !! path with Some (File _) => true | _ => false end), w).

(** A library reader applied to a path: the data stored there; the reader
    raises [RuntimeError] when the path holds no data file. *)
Definition read_file {F} (path : string) : Py F F :=
  fun w => match disk w !! path with
           | Some (File content) => (Ok content, w)
           | _ => (Raise (RuntimeError ("Unable to read " ++ path)), w)
           end.

Definition empty_world {F} : world F := World [] ∅.

Definition write_file {F} (path : string) (content : F) : Py F unit :=
  fun w => (Ok tt, World (stdout w) (<[path := File content]> (disk w))).

(** [for x in xs: body(x)] *)
Fixpoint for_each {F A} (xs : list A) (body : A -> Py F unit) : Py F unit :=
  match xs with
  | [] => ret tt
  | x :: rest => bind (body x) (fun _ => for_each rest body)
  end.

Definition starts_with_sep (s : string) : bool :=
  match s with
  | String c _ => Ascii.eqb c "/"
  | EmptyString => false
  end.

Fixpoint ends_with_sep (s : string) : bool :=
  match s with
  | EmptyString => false
  | String c EmptyString => Ascii.eqb c "/"
  | String _ rest => ends_with_sep rest
  end.

(** [os.path.join] of two components, as [posixpath] has it: an absolute
    second component replaces the first; otherwise a separator is put between
    them unless the first is empty or already ends with one. *)
Definition os_path_join (a b : string) : string :=
  if starts_with_sep b then b
  else if String.eqb a "" || ends_with_sep a then a ++ b
  else a ++ "/" ++ b.

(** [os.makedirs] on a path that names nothing yet.  The disk is flat: the
    directories above the path are not tracked. *)
Definition os_makedirs {F} (path : string) : Py F unit :=
  fun w => (Ok tt, World (stdout w) (<[path := Directory]> (disk w))).

(** For the statements: the path names a regular file. *)
Definition is_regular_file {F} (w : world F) (path : string) : Prop :=
  exists content, disk w !! path = Some (File content).

End Python.

Import Python.

Notation "'let?' x := c 'in' k" :=
  (match c with Ok x => k | Raise e => Raise e end)
  (at level 10, x name, c at level 100, k at level 200).
Notation "'let*' x := c 'in' k" := (bind c (fun x => k))
  (at level 10, x name, c at level 100, k at level 200).
Notation "c ;; k" := (bind c (fun _ => k))
  (at level 100, k at level 200, right associativity).

(** ** scripts/preprocess_t1.py *)

Module PreprocessT1.

Inductive pixel_id : Type := sitkUInt8 | sitkInt16 | sitkFloat32 | sitkFloat64.

Definition pixel_id_eqb (a b : pixel_id) : bool :=
  match a, b with
  | sitkUInt8, sitkUInt8 | sitkInt16, sitkInt16
  | sitkFloat32, sitkFloat32 | sitkFloat64, sitkFloat64 => true
  | _, _ => false
  end.

(** The SimpleITK operations the script calls.  Images are handles; each
    filter is a function from images to images that runs to completion. *)
Class SimpleITK : Type := {
  image : Type;
  GetPixelID : image -> pixel_id;
  Cast : image -> pixel_id -> image;
  N4BiasFieldCorrection : image -> image;
  (** [RescaleIntensityImageFilter] with its output minimum and maximum set *)
  RescaleIntensity : Q -> Q -> image -> image;
  AdaptiveHistogramEqualization : image -> image;
  (** [Bilateral image domainSigma rangeSigma] *)
  Bilateral : image -> Q -> Q -> image
}.

Section Script.
Context {sitk : SimpleITK}.

(** [sitk.ReadImage]: the image stored at the path; a path that holds no
    image file makes the reader raise. *)
Definition ReadImage (file_path : string) : Py image image :=
  read_file file_path.

Definition WriteImage (img : image) (output_path : string) : Py image unit :=
  write_file output_path img.

Definition preprocess_t1 (file_path output_path : string)
    (domain_sigma range_sigma : Q) (normalize : bool) : Py image unit :=
  let* found := os_path_exists file_path in
  if negb found then raise (FileNotFoundError ("[ERROR] File not found: " ++ file_path)) else
  let* image := ReadImage file_path in
  (* Step 1: convert to sitkFloat32 if necessary *)
  let image := if negb (pixel_id_eqb (GetPixelID image) sitkFloat32)
               then Cast image sitkFloat32 else image in
  (* Step 2: bias field correction *)
  let corrected_image := N4BiasFieldCorrection image in
  (* Step 3: normalize intensities to [0, 255] (if enabled) *)
  let corrected_image := if normalize then RescaleIntensity 0 255 corrected_image
                         else corrected_image in
  (* Step 3: adaptive histogram equalization *)
  let contrast_enhanced_image := AdaptiveHistogramEqualization corrected_image in
  (* Step 4: bilateral smoothing *)
  let smoothed_image := Bilateral corrected_image domain_sigma range_sigma in
  (* Step 5: save *)
  WriteImage smoothed_image output_path.

Definition preprocess_t1_with_validation (file_path output_path : string)
    (domain_sigma range_sigma : Q) (normalize : bool) : Py image unit :=
  let* found := os_path_exists file_path in
  if negb found then raise (FileNotFoundError ("[ERROR] File not found: " ++ file_path)) else
  let* image := ReadImage file_path in
  let image := if negb (pixel_id_eqb (GetPixelID image) sitkFloat32)
               then Cast image sitkFloat32 else image in
  let corrected_image := N4BiasFieldCorrection image in
  let smoothed_image := Bilateral corrected_image domain_sigma range_sigma in
  WriteImage smoothed_image output_path.

(** The chain the steps of [preprocess_t1] announce, each step consuming the
    result of the step before it: read, cast, bias correction, rescaling,
    contrast enhancement, smoothing. *)
Definition announced_chain (input : image) (domain_sigma range_sigma : Q)
    (normalize : bool) : image :=
  let image := if negb (pixel_id_eqb (GetPixelID input) sitkFloat32)
               then Cast input sitkFloat32 else input in
  let corrected_image := N4BiasFieldCorrection image in
  let corrected_image := if normalize then RescaleIntensity 0 255 corrected_image
                         else corrected_image in
  let contrast_enhanced_image := AdaptiveHistogramEqualization corrected_image in
  Bilateral contrast_enhanced_image domain_sigma range_sigma.

End Script.

(** The same library with another contrast-enhancement filter. *)
Definition with_equalization (sitk : SimpleITK) (f : @image sitk -> @image sitk) : SimpleITK :=
  {| image := @image sitk;
     GetPixelID := @GetPixelID sitk;
     Cast := @Cast sitk;
     N4BiasFieldCorrection := @N4BiasFieldCorrection sitk;
     RescaleIntensity := @RescaleIntensity sitk;
     AdaptiveHistogramEqualization := f;
     Bilateral := @Bilateral sitk |}.

(** A small instance to run the script on: an image is its pixel type and
    its list of intensities; bias correction subtracts one, rescaling clamps
    to the output bounds, equalization doubles, smoothing adds ten. *)
Definition sample_sitk : SimpleITK :=
  {| image := pixel_id * list Q;
     GetPixelID := fst;
     Cast := fun img ty => (ty, snd img);
     N4BiasFieldCorrection := fun img => (fst img, map (fun x => x - 1)%Q (snd img));
     RescaleIntensity := fun lo hi img => (fst img, map (fun x => Qmax lo (Qmin hi x)) (snd img));
     AdaptiveHistogramEqualization := fun img => (fst img, map (fun x => x * 2)%Q (snd img));
     Bilateral := fun img _ _ => (fst img, map (fun x => x + 10)%Q (snd img)) |}.

Definition sample_image : @image sample_sitk := (sitkInt16, [2; 4; 600]%Q).

Definition sample_world : world (@image sample_sitk) :=
  World [] {[ "t1.nii.gz" := File sample_image ]}.

(** [preprocess_t1] run on the sample world with its default arguments. *)
Definition sample_run : result unit * world (@image sample_sitk) :=
  preprocess_t1 (sitk := sample_sitk) "t1.nii.gz" "out.nii.gz" (1 # 10) 20 true sample_world.

Section Entry.
Context {sitk : SimpleITK}.


Definition input_dir : string :=
  "/Users/jsnunki/Code/neuro-viz/datasets/Simultaneous_eeg-fmri/bids_mri_fmri/sub-001/ses-001/anat/".

Definition output_dir : string :=
  "/Users/jsnunki/Code/neuro-viz/datasets/Simultaneous_eeg-fmri/bids_mri_fmri/sub-001/ses-001/anat/preprocessed_anat".

Definition t1_file : string :=
  os_path_join input_dir "sub-001_ses-001_acq-highres_T1w.nii.gz".

Definition output_file : string := os_path_join output_dir "preprocessed_t1.nii.gz".

(** How the script ends: it runs to its last line, or
    [os.makedirs(output_dir, exist_ok=True)], which stands outside the [try],
    raises [FileExistsError] because the path names a regular file. *)
Inductive script_end : Type :=
| Completed (w : world image)
| UncaughtFileExistsError (path : string) (w : world image).

Definition main (w : world image) : script_end :=
  match disk w !! output_dir with
  | Some (File _) => UncaughtFileExistsError output_dir w
  | made =>
      let w := match made with
               | None => snd (os_makedirs output_dir w)
               | _ => w
               end in
      Completed
        (snd (try_except
                (preprocess_t1_with_validation t1_file output_file (1 # 10) 20 true)
                (fun e => print ("[ERROR] Preprocessing failed: " ++ message e))
                w))
  end.

End Entry.

End PreprocessT1.

(** ** scripts/validate_t1.py *)

Module ValidateT1.

Local Open Scope Q_scope.

(** A SimpleITK image: its size along x, y, z, its voxels, and the spatial
    metadata.  The voxel type is floating point in the pipeline (the
    preprocessing step casts to float32). *)
Record image : Type := Image {
  size : list nat;
  pixels : list Q;
  origin : list Q;
  spacing : list Q;
  direction : list Q
}.

Record ndarray : Type := NdArray {
  shape : list nat;
  data : list Q
}.

(** [sitk.GetArrayFromImage]: the voxels, axes in reverse order. *)
Definition GetArrayFromImage (img : image) : ndarray :=
  NdArray (rev (size img)) (pixels img).

Definition identity_matrix (dim : nat) : list Q :=
  flat_map (fun i => map (fun j => if Nat.eqb i j then 1 else 0) (seq 0 dim)) (seq 0 dim).

(** [sitk.GetImageFromArray]: an image built from the array alone; origin
    zero, unit spacing and identity direction, as SimpleITK documents. *)
Definition GetImageFromArray (arr : ndarray) : image :=
  let dim := length (shape arr) in
  Image (rev (shape arr)) (data arr) (repeat 0 dim) (repeat 1 dim) (identity_matrix dim).

Definition GetDirection (img : image) : list Q := direction img.

(** [ndarray.min] and [ndarray.max]; numpy raises on an empty array. *)
Definition np_min (a : ndarray) : result Q :=
  match data a with
  | [] => Raise (ValueError "zero-size array to reduction operation minimum which has no identity")
  | x :: l => Ok (fold_left Qmin l x)
  end.

Definition np_max (a : ndarray) : result Q :=
  match data a with
  | [] => Raise (ValueError "zero-size array to reduction operation maximum which has no identity")
  | x :: l => Ok (fold_left Qmax l x)
  end.

(** Division of an array by a scalar.  On a zero divisor numpy fills the
    array with nan and inf; these have no counterpart among the rationals
    and the outcome is reported as [ZeroDivisionError]. *)
Definition np_divide (a : list Q) (d : Q) : result (list Q) :=
  if Qeq_bool d 0 then Raise (ZeroDivisionError "invalid value encountered in divide")
  else Ok (map (fun x => x / d) a).

Definition check_and_normalize_intensity (image : image) (lower_bound upper_bound : Q)
    : result ValidateT1.image :=
  let img_array := GetArrayFromImage image in
  let? min_int := np_min img_array in
  let? max_int := np_max img_array in
  if negb (Qle_bool lower_bound min_int && Qle_bool max_int upper_bound) then
    let shifted := map (fun x => x - min_int) (data img_array) in
    let? scaled := np_divide shifted (max_int - min_int) in
    let normalized_array :=
      map (fun x => x * (upper_bound - lower_bound) + lower_bound) scaled in
    Ok (GetImageFromArray (NdArray (shape img_array) normalized_array))
  else Ok image.

Definition Qlt_bool (a b : Q) : bool := negb (Qle_bool b a).

(** [direction[i]] on the flattened direction matrix. *)
Definition direction_at (direction : list Q) (i : nat) : result Q :=
  match nth_error direction i with
  | Some d => Ok d
  | None => Raise (IndexError "tuple index out of range")
  end.

Definition check_orientation (image : image) (view : string) : result bool :=
  let direction := GetDirection image in
  if String.eqb view "axial" then
    let? d := direction_at direction 8 in Ok (Qlt_bool 0 d)
  else if String.eqb view "sagittal" then
    let? d := direction_at direction 0 in Ok (Qlt_bool 0 d)
  else if String.eqb view "coronal" then
    let? d := direction_at direction 4 in Ok (Qlt_bool 0 d)
  else Raise (ValueError "Unsupported view. Use: 'axial', 'sagittal', or 'coronal'").

Definition t1_file_path : string :=
  "/Users/jsnunki/Code/neuro-viz/datasets/Simultaneous_eeg-fmri/bids_mri_fmri/sub-001/ses-001/anat/preprocessed_anat/preprocessed_t1.nii.gz".

Definition orientation_warning : string :=
  "[WARN] Image orientation is not correct. It should be reoriented.".

Definition edge_warning : string :=
  "[WARN] Edge clarity is not sufficient. Consider reviewing the processing or quality of the file.".

Definition success_line : string := "[SUCCESS] The image meets the expected criteria.".

Definition failure_line : string := "[FAILURE] The image does not meet some of the criteria.".

Section Main.
(** [check_edge_clarity] works on gradients, square roots and a plot; it is
    taken as given. *)
Variable check_edge_clarity : image -> bool.

Definition main : Py image unit :=
  let* image := read_file t1_file_path in
  (* 1. check and normalize intensities *)
  let* normalized_image := lift (check_and_normalize_intensity image 0 255) in
  (* 2. check orientation (axial view) *)
  let* is_oriented_correctly := lift (check_orientation normalized_image "axial") in
  (if negb is_oriented_correctly then print orientation_warning else ret tt) ;;
  (* 3. check edge clarity *)
  let are_edges_clear := check_edge_clarity normalized_image in
  (if negb are_edges_clear then print edge_warning else ret tt) ;;
  if is_oriented_correctly && are_edges_clear
  then print success_line
  else print failure_line.

End Main.





(** A volume stored upside down (last direction entry negative) whose
    intensities exceed 255. *)
Definition flipped_volume : image :=
  Image [2; 1; 1]%nat [0; 510] [-90; 126; -72] [1; 1; 1] [1; 0; 0; 0; 1; 0; 0; 0; -1].

Definition flipped_world : world image :=
  World [] {[ t1_file_path := File flipped_volume ]}.

(** Two equal voxels above 255. *)
Definition constant_volume : image :=
  Image [2; 1; 1]%nat [300; 300] [0; 0; 0] [1; 1; 1] [1; 0; 0; 0; 1; 0; 0; 0; 1].

End ValidateT1.

(** ** preprocess_t1.py and validate_t1.py on the same images *)

Module T1Pipeline.

(** SimpleITK filters given on the images of [ValidateT1]. *)
Definition sitk_on
    (GetPixelID : ValidateT1.image -> PreprocessT1.pixel_id)
    (Cast : ValidateT1.image -> PreprocessT1.pixel_id -> ValidateT1.image)
    (N4BiasFieldCorrection : ValidateT1.image -> ValidateT1.image)
    (RescaleIntensity : Q -> Q -> ValidateT1.image -> ValidateT1.image)
    (AdaptiveHistogramEqualization : ValidateT1.image -> ValidateT1.image)
    (Bilateral : ValidateT1.image -> Q -> Q -> ValidateT1.image)
    : PreprocessT1.SimpleITK :=
  {| PreprocessT1.image := ValidateT1.image;
     PreprocessT1.GetPixelID := GetPixelID;
     PreprocessT1.Cast := Cast;
     PreprocessT1.N4BiasFieldCorrection := N4BiasFieldCorrection;
     PreprocessT1.RescaleIntensity := RescaleIntensity;
     PreprocessT1.AdaptiveHistogramEqualization := AdaptiveHistogramEqualization;
     PreprocessT1.Bilateral := Bilateral |}.

End T1Pipeline.

(** ** The VTK objects the scripts handle *)

Module VTK.

Local Open Scope Q_scope.

Definition point : Type := Q * Q * Q.

(** A data array with one component per tuple. *)
Record vtkDataArray : Type := DataArray {
  array_name : string;
  values : list Q
}.

(** [vtkImageData]: grid points and the scalars of its point data, when any. *)
Record vtkImageData : Type := ImageData {
  image_points : list point;
  image_scalars : option vtkDataArray
}.

(** [vtkPolyData]: mesh points, cells (as point indices) and point scalars. *)
Record vtkPolyData : Type := PolyData {
  poly_points : list point;
  poly_cells : list (list nat);
  poly_scalars : option vtkDataArray
}.

Definition GetNumberOfPoints (pd : vtkPolyData) : nat := length (poly_points pd).

Definition SetScalars (scalars : vtkDataArray) (pd : vtkPolyData) : vtkPolyData :=
  PolyData (poly_points pd) (poly_cells pd) (Some scalars).

Definition empty_image_data : vtkImageData := ImageData [] None.
Definition empty_poly_data : vtkPolyData := PolyData [] [] None.

Inductive writer_kind : Type := vtkPolyDataWriter | vtkSTLWriter.

(** What the scripts find and leave on disk. *)
Inductive vtk_file : Type :=
| NiftiVolume (img : vtkImageData)
| Written (writer : writer_kind) (pd : vtkPolyData).

(** [vtkNIFTIImageReader] after [SetFileName] and [Update].  VTK readers do
    not raise: on a path they cannot read they report through VTK's own
    error channel and leave an empty output. *)
Record vtkNIFTIImageReader : Type := NiftiReader {
  reader_file_name : string;
  reader_output : vtkImageData
}.

Definition read_nifti (file_path : string) : Py vtk_file vtkNIFTIImageReader :=
  fun w => match disk w !! file_path with
           | Some (File (NiftiVolume img)) => (Ok (NiftiReader file_path img), w)
           | _ => (Ok (NiftiReader file_path empty_image_data), w)
           end.

(** [vtkPolyDataReader] after [SetFileName] and [Update], its output. *)
Definition read_polydata (file_path : string) : Py vtk_file vtkPolyData :=
  fun w => match disk w !! file_path with
           | Some (File (Written vtkPolyDataWriter pd)) => (Ok pd, w)
           | _ => (Ok empty_poly_data, w)
           end.

(** [writer.SetInputData; writer.SetFileName; writer.Write]. *)
Definition write_with (writer : writer_kind) (pd : vtkPolyData) (file_path : string)
    : Py vtk_file unit :=
  write_file file_path (Written writer pd).

(** [vtkImageThreshold].  The constructor leaves both replacements off and
    the thresholds at plus and minus [VTK_FLOAT_MAX]; [SetInValue] and
    [SetOutValue] also switch the corresponding replacement on. *)
Record vtkImageThreshold : Type := ImageThreshold {
  threshold_input : vtkImageData;
  LowerThreshold : Q;
  UpperThreshold : Q;
  ReplaceIn : bool;
  InValue : Q;
  ReplaceOut : bool;
  OutValue : Q
}.

Definition VTK_FLOAT_MAX : Q := 100000000000000000000000000000000000000.

Definition new_vtkImageThreshold (input : vtkImageData) : vtkImageThreshold :=
  ImageThreshold input (- VTK_FLOAT_MAX) VTK_FLOAT_MAX false 0 false 0.

Definition ThresholdBetween (lower upper : Q) (t : vtkImageThreshold) : vtkImageThreshold :=
  ImageThreshold (threshold_input t) lower upper
    (ReplaceIn t) (InValue t) (ReplaceOut t) (OutValue t).

Definition ReplaceInOn (t : vtkImageThreshold) : vtkImageThreshold :=
  ImageThreshold (threshold_input t) (LowerThreshold t) (UpperThreshold t)
    true (InValue t) (ReplaceOut t) (OutValue t).

Definition ReplaceOutOn (t : vtkImageThreshold) : vtkImageThreshold :=
  ImageThreshold (threshold_input t) (LowerThreshold t) (UpperThreshold t)
    (ReplaceIn t) (InValue t) true (OutValue t).

Definition SetInValue (v : Q) (t : vtkImageThreshold) : vtkImageThreshold :=
  ImageThreshold (threshold_input t) (LowerThreshold t) (UpperThreshold t)
    true v (ReplaceOut t) (OutValue t).

Definition SetOutValue (v : Q) (t : vtkImageThreshold) : vtkImageThreshold :=
  ImageThreshold (threshold_input t) (LowerThreshold t) (UpperThreshold t)
    (ReplaceIn t) (InValue t) true v.

(** What the filter does to one voxel. *)
Definition threshold_voxel (t : vtkImageThreshold) (v : Q) : Q :=
  if Qle_bool (LowerThreshold t) v && Qle_bool v (UpperThreshold t)
  then (if ReplaceIn t then InValue t else v)
  else (if ReplaceOut t then OutValue t else v).

(** [threshold.GetOutput] once the filter is updated. *)
Definition threshold_output (t : vtkImageThreshold) : vtkImageData :=
  ImageData (image_points (threshold_input t))
    (option_map (fun a => DataArray (array_name a) (map (threshold_voxel t) (values a)))
       (image_scalars (threshold_input t))).

(** For the statements: the mask value of a voxel, 1 inside the closed
    interval between the thresholds and 0 outside. *)
Definition binary_mask (lower_threshold upper_threshold v : Q) : Q :=
  if Qle_bool lower_threshold v && Qle_bool v upper_threshold then 1 else 0.

Definition within (lower_threshold upper_threshold v : Q) : Prop :=
  lower_threshold <= v /\ v <= upper_threshold.

(** The numerical routines of VTK the scripts delegate to. *)
Class Filters : Type := {
  (** [vtkMarchingCubes] on an image, contour value 0 set to the isovalue *)
  MarchingCubes : vtkImageData -> Q -> vtkPolyData;
  (** [vtkSmoothPolyDataFilter] with its number of iterations and its
      relaxation factor *)
  SmoothPolyData : vtkPolyData -> nat -> Q -> vtkPolyData;
  (** [vtkFillHolesFilter] with its hole size *)
  FillHoles : vtkPolyData -> Q -> vtkPolyData;
  (** [vtkConnectivityFilter], extraction mode set to the largest region *)
  LargestRegion : vtkPolyData -> vtkPolyData;
  (** [vtkWindowedSincPolyDataFilter] with its number of iterations and its
      pass band *)
  WindowedSinc : vtkPolyData -> nat -> Q -> vtkPolyData;
  (** [array.GetRange] *)
  GetRange : vtkDataArray -> Q * Q;
  (** [vtkPointLocator] built on a data set: [FindClosestPoint]; [None]
      when the query raises [RuntimeError] *)
  FindClosestPoint : vtkImageData -> point -> option nat
}.

(** [array.GetTuple1]; an index outside the array is a failed call. *)
Definition GetTuple1 (a : vtkDataArray) (idx : nat) : option Q := values a !! idx.

(** A method called on what [GetScalars] returned: on [None] Python raises
    [AttributeError]. *)
Definition scalars_method {A} (name : string) (scalars : option vtkDataArray)
    (method : vtkDataArray -> A) : result A :=
  match scalars with
  | Some a => Ok (method a)
  | None => Raise (AttributeError ("'NoneType' object has no attribute '" ++ name ++ "'"))
  end.

(** [vtkColorTransferFunction]: the RGB points added to it. *)
Definition vtkColorTransferFunction : Type := list (Q * (Q * Q * Q)).

(** [vtkPolyDataMapper]; a new mapper has scalar range (0, 1) and no
    lookup table of its own. *)
Record vtkPolyDataMapper : Type := Mapper {
  mapper_input : vtkPolyData;
  LookupTable : option vtkColorTransferFunction;
  ScalarRange : Q * Q
}.

Definition new_vtkPolyDataMapper (input : vtkPolyData) : vtkPolyDataMapper :=
  Mapper input None (0, 1).

Definition SetLookupTable (ctf : vtkColorTransferFunction) (m : vtkPolyDataMapper)
    : vtkPolyDataMapper :=
  Mapper (mapper_input m) (Some ctf) (ScalarRange m).

Definition SetScalarRange (range : Q * Q) (m : vtkPolyDataMapper) : vtkPolyDataMapper :=
  Mapper (mapper_input m) (LookupTable m) range.

(** [vtkActor]: its mapper and the opacity of its property. *)
Record vtkActor : Type := Actor {
  actor_mapper : vtkPolyDataMapper;
  opacity : Q
}.

(** A small instance to run the scripts on: the locator searches the grid
    points one by one (and fails on an empty grid), marching cubes keeps the
    grid points whose scalar reaches the isovalue, the mesh filters change
    nothing. *)
Definition squared_distance (p q : point) : Q :=
  let '(x1, y1, z1) := p in
  let '(x2, y2, z2) := q in
  (x1 - x2) * (x1 - x2) + (y1 - y2) * (y1 - y2) + (z1 - z2) * (z1 - z2).

Fixpoint closest_from (p : point) (best : nat) (best_distance : Q) (idx : nat)
    (candidates : list point) : nat :=
  match candidates with
  | [] => best
  | q :: rest =>
      if Qle_bool best_distance (squared_distance p q)
      then closest_from p best best_distance (S idx) rest
      else closest_from p idx (squared_distance p q) (S idx) rest
  end.

Definition linear_search (grid : list point) (p : point) : option nat :=
  match grid with
  | [] => None
  | q :: rest => Some (closest_from p 0%nat (squared_distance p q) 1%nat rest)
  end.

Definition sample_filters : Filters :=
  {| MarchingCubes := fun img isovalue =>
       let scalars := match image_scalars img with Some a => values a | None => [] end in
       PolyData
         (map fst (List.filter (fun ps => Qle_bool isovalue (snd ps))
                     (combine (image_points img) scalars)))
         [] None;
     SmoothPolyData := fun pd _ _ => pd;
     FillHoles := fun pd _ => pd;
     LargestRegion := fun pd => pd;
     WindowedSinc := fun pd _ _ => pd;
     GetRange := fun a =>
       match values a with
       | [] => (0, 0)
       | x :: l => (fold_left Qmin l x, fold_left Qmax l x)
       end;
     FindClosestPoint := fun dataset p => linear_search (image_points dataset) p |}.

(** A two-by-one grid with its activations, a grid without scalars, and a
    three-point surface. *)
Definition sample_fmri : vtkImageData :=
  ImageData [(0, 0, 0); (10, 0, 0)] (Some (DataArray "scalars" [7; 45])).

Definition sample_surface : vtkPolyData :=
  PolyData [(1, 0, 0); (9, 1, 0); (6, 0, 0)] [[0; 1; 2]%nat] None.

Definition sample_disk : gmap string (entry vtk_file) :=
  {[ "fmri.nii.gz" := File (NiftiVolume sample_fmri);
     "empty.nii.gz" := File (NiftiVolume empty_image_data);
     "surface.vtk" := File (Written vtkPolyDataWriter sample_surface) ]}.

(** For the statements: [range] is the pair of the least and the greatest
    value of a non-empty array, which is what [GetRange] computes. *)
Definition is_range (a : list Q) (range : Q * Q) : Prop :=
  In (fst range) a /\ In (snd range) a
  /\ Forall (fun v => fst range <= v /\ v <= snd range) a.

End VTK.

(** ** scripts/surface_reconstruction.py *)

Module SurfaceReconstruction.
Import VTK.
Local Open Scope Q_scope.

(** [str.lower] on the ASCII letters. *)
Definition lower_ascii (c : ascii) : ascii :=
  let n := N_of_ascii c in
  if (65 <=? n)%N && (n <=? 90)%N then ascii_of_N (n + 32) else c.

Fixpoint lower (s : string) : string :=
  match s with
  | EmptyString => EmptyString
  | String c rest => String (lower_ascii c) (lower rest)
  end.

Definition load_nifti (file_path : string) : Py vtk_file vtkNIFTIImageReader :=
  read_nifti file_path.

Definition segment_data (reader : vtkNIFTIImageReader) (lower_threshold upper_threshold : Q)
    : vtkImageThreshold :=
  let threshold := new_vtkImageThreshold (reader_output reader) in
  let threshold := ThresholdBetween lower_threshold upper_threshold threshold in
  let threshold := ReplaceInOn threshold in
  let threshold := SetInValue 1 threshold in
  let threshold := ReplaceOutOn threshold in
  let threshold := SetOutValue 0 threshold in
  threshold.

Section Script.
Context {vtk : Filters}.

Definition calculate_dynamic_isovalue (threshold : vtkImageThreshold) : result Q :=
  let scalars := image_scalars (threshold_output threshold) in
  match scalars with
  | None => Raise (ValueError "[ERROR] Segmented data contains no scalars!")
  | Some scalars =>
      let scalar_range := GetRange scalars in
      let isovalue := (fst scalar_range + snd scalar_range) * (6 # 10) in
      Ok isovalue
  end.

Definition generate_surface (threshold : vtkImageThreshold) (isovalue : Q)
    : result vtkPolyData :=
  let polydata := MarchingCubes (threshold_output threshold) isovalue in
  if Nat.eqb (GetNumberOfPoints polydata) 0
  then Raise (ValueError "[ERROR] No surface was generated! Check thresholds or isovalue.")
  else Ok polydata.

Definition apply_laplacian_smoothing (polydata : vtkPolyData) (iterations : nat)
    (relaxation_factor : Q) : vtkPolyData :=
  SmoothPolyData polydata iterations relaxation_factor.

Definition fill_holes (polydata : vtkPolyData) (hole_size : Q) : vtkPolyData :=
  FillHoles polydata hole_size.

Definition remove_small_components (polydata : vtkPolyData) : vtkPolyData :=
  LargestRegion polydata.

Definition smooth_surface (polydata : vtkPolyData) (iterations : nat) (pass_band : Q)
    : vtkPolyData :=
  WindowedSinc polydata iterations pass_band.

End Script.

Definition apply_color_mapping (polydata : vtkPolyData) : vtkPolyDataMapper :=
  let mapper := new_vtkPolyDataMapper polydata in
  let color_transfer_function := [ (30, (0, 0, 1)); (70, (1, 0, 0)) ] in
  SetLookupTable color_transfer_function mapper.

(** The value is the actor handed to the renderer; the render window and its
    event loop are not modelled. *)
Definition visualize_with_vtk (polydata : vtkPolyData) : vtkActor :=
  let mapper := apply_color_mapping polydata in
  Actor mapper 1.

Definition export_surface (polydata : vtkPolyData) (file_path file_format : string)
    : Py vtk_file unit :=
  let* writer :=
    if String.eqb (lower file_format) "vtk" then ret vtkPolyDataWriter
    else if String.eqb (lower file_format) "stl" then ret vtkSTLWriter
    else raise (ValueError "[ERROR] Unsupported file format. Use 'vtk' or 'stl'.") in
  write_with writer polydata file_path.

Definition file_path : string :=
  "/Users/jsnunki/Code/neuro-viz/datasets/Simultaneous_eeg-fmri/bids_mri_fmri/sub-001/ses-001/anat/preprocessed_anat/segment_t1_fsl/preprocessed_t1_brain.nii.gz".

Definition export_path : string :=
  "/Users/jsnunki/Code/neuro-viz/results/reconstructed_brain_surface.vtk".

Section Main.
Context {vtk : Filters}.

(** The script's entry point, arguments at their defaults. *)
Definition main : Py vtk_file unit :=
  try_except
    (let* reader := load_nifti file_path in
     let segmented := segment_data reader 30 60 in
     let* dynamic_isovalue := lift (calculate_dynamic_isovalue segmented) in
     let* brain_surface := lift (generate_surface segmented dynamic_isovalue) in
     let laplacian_surface := apply_laplacian_smoothing brain_surface 100 (1 # 10) in
     let filled_surface := fill_holes laplacian_surface 50 in
     let cleaned_surface := remove_small_components filled_surface in
     let final_surface := smooth_surface cleaned_surface 600 (2 # 10) in
     let _ := visualize_with_vtk final_surface in
     export_surface final_surface export_path "vtk" ;;
     let _ := visualize_with_vtk final_surface in
     ret tt)
    (fun e => print ("[ERROR] " ++ message e)).

End Main.

(** [str.upper] on the ASCII letters; [export_surface] uses it for the format
    it announces. *)
Definition upper_ascii (c : ascii) : ascii :=
  let n := N_of_ascii c in
  if (97 <=? n)%N && (n <=? 122)%N then ascii_of_N (n - 32) else c.

Fixpoint upper (s : string) : string :=
  match s with
  | EmptyString => EmptyString
  | String c rest => String (upper_ascii c) (upper rest)
  end.

End SurfaceReconstruction.

(** ** scripts/align_brain_t1_surface.py *)

Module AlignBrainT1Surface.
Import VTK.
Local Open Scope Q_scope.

Definition load_t1_image (file_path : string) : Py vtk_file vtkNIFTIImageReader :=
  let* found := os_path_exists file_path in
  if negb found then raise (FileNotFoundError ("[ERROR] File not found: " ++ file_path)) else
  read_nifti file_path.

Definition segment_t1_image (t1_reader : vtkNIFTIImageReader)
    (lower_threshold upper_threshold : Q) : vtkImageThreshold :=
  let threshold := new_vtkImageThreshold (reader_output t1_reader) in
  let threshold := ThresholdBetween lower_threshold upper_threshold threshold in
  let threshold := SetInValue 1 threshold in
  let threshold := SetOutValue 0 threshold in
  threshold.

Section Script.
Context {vtk : Filters}.

Definition generate_surface (threshold : vtkImageThreshold) (smooth_iterations : nat)
    : vtkPolyData :=
  let marching_cubes := MarchingCubes (threshold_output threshold) (5 # 10) in
  (* the relaxation factor is left at VTK's default, 0.01 *)
  SmoothPolyData marching_cubes smooth_iterations (1 # 100).

End Script.

Definition save_surface_to_file (surface_polydata : vtkPolyData) (output_file : string)
    : Py vtk_file unit :=
  write_with vtkPolyDataWriter surface_polydata output_file.

(** The value is the surface actor handed to the renderer, with the opacity
    the function sets; the slice actor of the T1 image, the render window
    and its event loop are not modelled. *)
Definition overlay_t1_and_surface (t1_reader : vtkNIFTIImageReader)
    (surface_polydata : vtkPolyData) : vtkActor :=
  let surface_mapper := new_vtkPolyDataMapper surface_polydata in
  Actor surface_mapper (1 # 10).

Definition t1_file : string :=
  "/Users/jsnunki/Code/neuro-viz/datasets/Simultaneous_eeg-fmri/bids_mri_fmri/sub-001/ses-001/anat/preprocessed_anat/segment_t1_fsl/preprocessed_t1_brain.nii.gz".

Definition surface_path : string :=
  "/Users/jsnunki/Code/neuro-viz/results/reconstructed_brain_surface.vtk".

Section Main.
Context {vtk : Filters}.

Definition main : Py vtk_file unit :=
  try_except
    (let* t1_reader := load_t1_image t1_file in
     let threshold := segment_t1_image t1_reader 20 80 in
     let surface_polydata := generate_surface threshold 300 in
     let _ := overlay_t1_and_surface t1_reader surface_polydata in
     save_surface_to_file surface_polydata surface_path)
    (fun e => print ("[ERROR] " ++ message e)).

End Main.

End AlignBrainT1Surface.

(** ** scripts/map_fmri_and_brain.py *)

Module MapFmriAndBrain.
Import VTK.
Local Open Scope Q_scope.

Definition load_fmri_image (file_path : string) : Py vtk_file vtkNIFTIImageReader :=
  let* found := os_path_exists file_path in
  if negb found then raise (FileNotFoundError ("[ERROR] fMRI file not found: " ++ file_path)) else
  let* reader := read_nifti file_path in
  match image_scalars (reader_output reader) with
  | None => raise (ValueError "[ERROR] fMRI image does not contain scalar data.")
  | Some _ => ret reader
  end.

Section Script.
Context {vtk : Filters}.

(** The body of the [try] for one surface point, with its [except
    RuntimeError] handler.  [fmri_data] is dereferenced only once the
    locator has answered. *)
Definition interpolated_value (fmri_output : vtkImageData)
    (fmri_data : option vtkDataArray) (surface_point : point) : result Q :=
  match FindClosestPoint fmri_output surface_point with
  | None => Ok 0
  | Some closest_point_idx =>
      match fmri_data with
      | None => Raise (AttributeError "'NoneType' object has no attribute 'GetTuple1'")
      | Some fmri_data =>
          match GetTuple1 fmri_data closest_point_idx with
          | Some value => Ok value
          | None => Ok 0
          end
      end
  end.

(** The loop over the surface points, in order; [scalars] is the float
    array filled by [InsertNextValue]. *)
Fixpoint map_points (fmri_output : vtkImageData) (fmri_data : option vtkDataArray)
    (surface_points : list point) (scalars : list Q) : result (list Q) :=
  match surface_points with
  | [] => Ok scalars
  | surface_point :: rest =>
      let? value := interpolated_value fmri_output fmri_data surface_point in
      map_points fmri_output fmri_data rest (scalars ++ [value])
  end.

Definition map_fmri_to_surface (fmri_reader : vtkNIFTIImageReader)
    (surface_polydata : vtkPolyData) : result vtkPolyData :=
  let fmri_output := reader_output fmri_reader in
  let fmri_data := image_scalars fmri_output in
  let? scalars := map_points fmri_output fmri_data (poly_points surface_polydata) [] in
  Ok (SetScalars (DataArray "fMRI Activations" scalars) surface_polydata).

(** For the statements: the scalar stored at the index the locator returns
    for a surface point, 0 when the query or the access fails. *)
Definition nearest_value (fmri_output : vtkImageData) (fmri_data : vtkDataArray)
    (surface_point : point) : Q :=
  match FindClosestPoint fmri_output surface_point with
  | Some idx => default 0 (GetTuple1 fmri_data idx)
  | None => 0
  end.

Definition enhanced_color_mapping (surface_polydata : vtkPolyData)
    : result vtkPolyDataMapper :=
  let? scalar_range := scalars_method "GetRange" (poly_scalars surface_polydata) GetRange in
  let min_value := fst scalar_range in
  let max_value := snd scalar_range in
  let adjusted_max := max_value * (9 # 10) in
  let color_transfer_function :=
    [ (min_value, (0, 0, 1));
      ((min_value + adjusted_max) * (5 # 10), (0, 1, 0));
      (adjusted_max, (1, 0, 0)) ] in
  let mapper := new_vtkPolyDataMapper surface_polydata in
  let mapper := SetLookupTable color_transfer_function mapper in
  let mapper := SetScalarRange (fst scalar_range, adjusted_max) mapper in
  Ok mapper.

(** The value is the actor handed to the renderer; the render window and its
    event loop are not modelled. *)
Definition visualize_fmri_on_surface (surface_polydata : vtkPolyData)
    (mapper : option vtkPolyDataMapper) : result vtkActor :=
  let mapper :=
    match mapper with
    | Some mapper => mapper
    | None =>
        let mapper := new_vtkPolyDataMapper surface_polydata in
        let scalars := poly_scalars surface_polydata in
        match scalars with
        | Some scalars => SetScalarRange (GetRange scalars) mapper
        | None => mapper
        end
    end in
  Ok (Actor mapper 1).

Definition apply_smoothing (surface_polydata : vtkPolyData) (iterations : nat)
    (pass_band : Q) : vtkPolyData :=
  WindowedSinc surface_polydata iterations pass_band.

End Script.

Definition save_mapped_surface (surface_polydata : vtkPolyData) (output_path : string)
    : Py vtk_file unit :=
  write_with vtkPolyDataWriter surface_polydata output_path.

Definition fmri_path : string :=
  "/Users/jsnunki/Code/neuro-viz/datasets/Simultaneous_eeg-fmri/bids_mri_fmri/sub-001/ses-001/func/preprocessed_fmri/preprocess_eoec_fmri.feat/filtered_eoec_func_data.nii.gz".

Definition surface_path : string :=
  "/Users/jsnunki/Code/neuro-viz/results/reconstructed_brain_surface.vtk".

Definition output_path : string :=
  "/Users/jsnunki/Code/neuro-viz/results/mapped_fmri_to_surface.vtk".

Section Main.
Context {vtk : Filters}.

(** The script's entry point. *)
Definition main : Py vtk_file unit :=
  try_except
    (let* fmri_reader := load_fmri_image fmri_path in
     let* surface_polydata := read_polydata surface_path in
     let* mapped_surface := lift (map_fmri_to_surface fmri_reader surface_polydata) in
     let smoothed_surface := apply_smoothing mapped_surface 100 (8 # 100) in
     let* optimized_color_mapper := lift (enhanced_color_mapping smoothed_surface) in
     let* shown :=
       lift (visualize_fmri_on_surface smoothed_surface (Some optimized_color_mapper)) in
     save_mapped_surface smoothed_surface output_path)
    (fun e => print ("[ERROR] " ++ message e)).

End Main.

(** A world in which the volumes the two VTK pipelines load have no scalars. *)
Definition scalarless_world : world vtk_file :=
  World [] {[ fmri_path := File (NiftiVolume empty_image_data);
              SurfaceReconstruction.file_path := File (NiftiVolume empty_image_data) ]}.

End MapFmriAndBrain.

(** ** results/gui_visualization.py *)

Module GuiVisualization.
Import VTK.
Local Open Scope Q_scope.

Section App.
Context {vtk : Filters}.

(** [BrainVisualizerApp.setup_surface]; [path] is [self.path], the value is
    [self.surface_actor]. *)
Definition setup_surface (path : string) : Py vtk_file vtkActor :=
  let* output := read_polydata path in
  let mapper := new_vtkPolyDataMapper output in
  let* scalar_range := lift (scalars_method "GetRange" (poly_scalars output) GetRange) in
  let mapper := SetScalarRange scalar_range mapper in
  ret (Actor mapper (5 # 10)).

End App.

(** [BrainVisualizerApp]: its path, the value of the opacity slider (set up
    by [init_ui] with range 0 to 100 and value 50) and the surface actor. *)
Record BrainVisualizerApp : Type := App {
  app_path : string;
  opacity_slider : Z;
  surface_actor : vtkActor
}.

Definition mapped_fmri_to_surface : string :=
  "/Users/jsnunki/Code/neuro-viz/results/mapped_fmri_to_surface.vtk".

Section Window.
Context {vtk : Filters}.

(** [BrainVisualizerApp(path)]: [init_ui], then [setup_vtk], which loads
    the surface. *)
Definition new_BrainVisualizerApp (path : string) : Py vtk_file BrainVisualizerApp :=
  let* actor := setup_surface path in
  ret (App path 50 actor).

End Window.

(** [update_opacity], the slot of the slider's [valueChanged]. *)
Definition update_opacity (app : BrainVisualizerApp) (value : Z) : BrainVisualizerApp :=
  let opacity := inject_Z value / 100 in
  App (app_path app) value (Actor (actor_mapper (surface_actor app)) opacity).

End GuiVisualization.

(** ** scripts/visualize_validate.py *)

Module VisualizeValidate.

(** nibabel, MNE and matplotlib as the script uses them: what a data file
    holds, and the display of a loaded file as an action on the world. *)
Class Viewers : Type := {
  recording : Type;
  show_t1_views : recording -> Py recording unit;
  show_fmri_views : recording -> Py recording unit;
  show_eeg_views : recording -> Py recording unit
}.

Section Script.
Context {viewers : Viewers}.

Definition validate_file (filepath : string) : Py recording bool :=
  let* found := os_path_isfile filepath in
  if negb found then
    print ("[ERROR] File not found: " ++ filepath) ;;
    ret false
  else ret true.

Definition visualize_t1 (filepath : string) : Py recording unit :=
  let* valid := validate_file filepath in
  if negb valid then ret tt else
  let* t1_img := read_file filepath in
  show_t1_views t1_img.

Definition visualize_fmri (filepath : string) : Py recording unit :=
  let* valid := validate_file filepath in
  if negb valid then ret tt else
  let* fmri_img := read_file filepath in
  show_fmri_views fmri_img.

Definition visualize_eeg (filepath : string) : Py recording unit :=
  let* valid := validate_file filepath in
  if negb valid then ret tt else
  let* raw := read_file filepath in
  show_eeg_views raw.

End Script.

(** An instance with nothing to show. *)
Definition silent_viewers : Viewers :=
  {| recording := unit;
     show_t1_views := fun _ => ret tt;
     show_fmri_views := fun _ => ret tt;
     show_eeg_views := fun _ => ret tt |}.

Definition T1_FILE : string :=
  "/Users/jsnunki/Code/neuro-viz/datasets/Simultaneous_eeg-fmri/bids_mri_fmri/sub-001/ses-001/anat/sub-001_ses-001_acq-highres_T1w.nii.gz".

Definition FMRI_FILES : list string :=
  [ "/Users/jsnunki/Code/neuro-viz/datasets/Simultaneous_eeg-fmri/bids_mri_fmri/sub-001/ses-001/func/sub-001_ses-001_task-eoec_bold.nii.gz";
    "/Users/jsnunki/Code/neuro-viz/datasets/Simultaneous_eeg-fmri/bids_mri_fmri/sub-001/ses-001/func/sub-001_ses-001_task-rest_bold.nii.gz" ].

Definition EEG_FILES : list string :=
  [ "/Users/jsnunki/Code/neuro-viz/datasets/Simultaneous_eeg-fmri/bids_eeg/derivatives/gac_with_events_edf/01_EEG_fMRI_OCOA_GAC_with_events.edf";
    "/Users/jsnunki/Code/neuro-viz/datasets/Simultaneous_eeg-fmri/bids_eeg/derivatives/gac_with_events_edf/01_EEG_fMRI_resting_EC_GAC_with_events.edf";
    "/Users/jsnunki/Code/neuro-viz/datasets/Simultaneous_eeg-fmri/bids_eeg/derivatives/gac_with_events_edf/01_EEG_fMRI_resting_EO_GAC_with_events.edf" ].

Section Main.
Context {viewers : Viewers}.

Definition main : Py recording unit :=
  visualize_t1 T1_FILE ;;
  for_each FMRI_FILES (fun fmri_file => visualize_fmri fmri_file) ;;
  for_each EEG_FILES (fun eeg_file => visualize_eeg eeg_file).

End Main.

End VisualizeValidate.

(** ** Sample worlds for the entry points *)

Module Samples.
Import VTK.
Local Open Scope Q_scope.


(** The sample surface with the activations the sample grid gives it. *)
Definition sample_mapped : vtkPolyData :=
  SetScalars (DataArray "fMRI Activations" [7; 45; 45]) sample_surface.



End Samples.

(** * Properties of the scripts *)

(** ** The world primitives *)

Section WorldFacts.
Context {F : Type}.
Implicit Types (w : world F) (path : string).

Lemma os_path_exists_missing w path :
  disk w !! path = None -> os_path_exists path w = (Ok false, w).
Proof. intros H. unfold os_path_exists. rewrite H. reflexivity. Qed.

Lemma os_path_exists_file w path (content : F) :
  disk w !! path = Some (File content) -> os_path_exists path w = (Ok true, w).
Proof. intros H. unfold os_path_exists. rewrite H. reflexivity. Qed.

Lemma os_path_isfile_missing w path :
  disk w !! path = None -> os_path_isfile path w = (Ok false, w).
Proof. intros H. unfold os_path_isfile. rewrite H. reflexivity. Qed.

Lemma read_file_stored w path (content : F) :
  disk w !! path = Some (File content) -> read_file path w = (Ok content, w).
Proof. intros H. unfold read_file. rewrite H. reflexivity. Qed.

End WorldFacts.

(** ** preprocess_t1.py *)

Section PreprocessT1Facts.
Import PreprocessT1.

(** C8: [preprocess_t1] with [normalize=False] and
    [preprocess_t1_with_validation] have the same outcome on every world, so
    they write the same image to [output_path]; replacing the adaptive
    histogram equalization by any other filter changes nothing of what
    [preprocess_t1] does; and on a stored image both write the bilateral
    smoothing of the bias-corrected float32 cast of that image. *)
Theorem preprocess_t1_without_normalize_matches_validation
    (sitk : SimpleITK) (file_path output_path : string)
    (domain_sigma range_sigma : Q) (normalize : bool) (w : world image) :
  preprocess_t1 file_path output_path domain_sigma range_sigma false w
  = preprocess_t1_with_validation file_path output_path domain_sigma range_sigma normalize w
  /\ (forall f : image -> image,
        @preprocess_t1 (with_equalization sitk f)
          file_path output_path domain_sigma range_sigma normalize w
        = preprocess_t1 file_path output_path domain_sigma range_sigma normalize w)
  /\ (forall img : image,
        disk w !! file_path = Some (File img) ->
        preprocess_t1 file_path output_path domain_sigma range_sigma false w
        = (Ok tt,
           World (stdout w)
             (<[output_path :=
                  File (Bilateral
                          (N4BiasFieldCorrection
                             (if negb (pixel_id_eqb (GetPixelID img) sitkFloat32)
                              then Cast img sitkFloat32 else img))
                          domain_sigma range_sigma)]> (disk w)))).
Proof.
  split; [reflexivity | split; [reflexivity |]].
  intros img Himg. unfold preprocess_t1, bind.
  rewrite (os_path_exists_file _ _ _ Himg). cbn [negb].
  unfold ReadImage. rewrite (read_file_stored _ _ _ Himg).
  reflexivity.
Qed.

Lemma preprocess_t1_without_normalize_matches_validation_witness :
  disk sample_world !! "t1.nii.gz" = Some (File sample_image)
  /\ preprocess_t1 (sitk := sample_sitk) "t1.nii.gz" "out.nii.gz" (1 # 10) 20 false sample_world
     = (Ok tt,
        World (stdout sample_world)
          (<["out.nii.gz" :=
               File (Bilateral
                       (N4BiasFieldCorrection
                          (if negb (pixel_id_eqb (GetPixelID sample_image) sitkFloat32)
                           then Cast sample_image sitkFloat32
                           else sample_image))
                       (1 # 10) 20)]> (disk sample_world))).
Proof.
  split; [reflexivity |].
  apply (preprocess_t1_without_normalize_matches_validation
           sample_sitk "t1.nii.gz" "out.nii.gz" (1 # 10) 20 false sample_world).
  reflexivity.
Defined.

(** C4: on the sample image, [preprocess_t1] writes the smoothing of the
    rescaled bias-corrected image, [11; 13; 265]; the chain its steps announce,
    in which smoothing consumes the contrast-enhanced image, would have
    written [12; 16; 520].  The equalization result is computed and dropped. *)
Lemma preprocess_t1_drops_contrast_enhancement :
  fst sample_run = Ok tt
  /\ disk (snd sample_run) !! "out.nii.gz" = Some (File (sitkFloat32, [11; 13; 265]%Q))
  /\ announced_chain sample_image (1 # 10) 20 true = (sitkFloat32, [12; 16; 520]%Q)
  /\ disk (snd sample_run) !! "out.nii.gz"
     <> Some (File (announced_chain sample_image (1 # 10) 20 true)).
Proof. vm_compute. repeat split; try reflexivity. discriminate. Qed.

End PreprocessT1Facts.

(** ** Paths that do not exist *)

Section MissingFileFacts.
Import VTK PreprocessT1 AlignBrainT1Surface MapFmriAndBrain VisualizeValidate.

(** C3, as the code has it: on a path that does not exist, [load_t1_image],
    [load_fmri_image], [preprocess_t1] and [preprocess_t1_with_validation]
    raise [FileNotFoundError] and leave the world as it was; [visualize_t1],
    [visualize_fmri] and [visualize_eeg], which go through [validate_file],
    print the error line and return. *)
Theorem missing_file_handling (sitk : SimpleITK) (viewers : Viewers)
    (path output_path : string) (domain_sigma range_sigma : Q) (normalize : bool)
    (w_sitk : world image) (w_vtk : world vtk_file) (w_nib : world recording) :
  disk w_sitk !! path = None ->
  disk w_vtk !! path = None ->
  disk w_nib !! path = None ->
  load_t1_image path w_vtk
    = (Raise (FileNotFoundError ("[ERROR] File not found: " ++ path)), w_vtk)
  /\ load_fmri_image path w_vtk
    = (Raise (FileNotFoundError ("[ERROR] fMRI file not found: " ++ path)), w_vtk)
  /\ preprocess_t1 path output_path domain_sigma range_sigma normalize w_sitk
    = (Raise (FileNotFoundError ("[ERROR] File not found: " ++ path)), w_sitk)
  /\ preprocess_t1_with_validation path output_path domain_sigma range_sigma normalize w_sitk
    = (Raise (FileNotFoundError ("[ERROR] File not found: " ++ path)), w_sitk)
  /\ visualize_t1 path w_nib
    = (Ok tt, World (stdout w_nib ++ ["[ERROR] File not found: " ++ path]) (disk w_nib))
  /\ visualize_fmri path w_nib
    = (Ok tt, World (stdout w_nib ++ ["[ERROR] File not found: " ++ path]) (disk w_nib))
  /\ visualize_eeg path w_nib
    = (Ok tt, World (stdout w_nib ++ ["[ERROR] File not found: " ++ path]) (disk w_nib)).
Proof.
  intros Hsitk Hvtk Hnib.
  unfold load_t1_image, load_fmri_image, preprocess_t1, preprocess_t1_with_validation,
    visualize_t1, visualize_fmri, visualize_eeg, validate_file, bind.
  rewrite (os_path_exists_missing _ _ Hsitk), (os_path_exists_missing _ _ Hvtk),
    (os_path_isfile_missing _ _ Hnib).
  repeat split; reflexivity.
Qed.

Lemma missing_file_handling_witness :
  (disk (empty_world : world (@image sample_sitk)) !! "absent.nii.gz" = None
   /\ disk (empty_world : world vtk_file) !! "absent.nii.gz" = None
   /\ disk (empty_world : world (@recording silent_viewers)) !! "absent.nii.gz" = None)
  /\ load_t1_image "absent.nii.gz" empty_world
     = (Raise (FileNotFoundError "[ERROR] File not found: absent.nii.gz"), empty_world)
  /\ visualize_t1 (viewers := silent_viewers) "absent.nii.gz" empty_world
     = (Ok tt, World ["[ERROR] File not found: absent.nii.gz"] ∅).
Proof.
  split; [repeat split |].
  destruct (missing_file_handling sample_sitk silent_viewers
              "absent.nii.gz" "out.nii.gz" (1 # 10) 20 true
              empty_world empty_world empty_world
              eq_refl eq_refl eq_refl) as (Ht1 & _ & _ & _ & Hview & _).
  split; [exact Ht1 | exact Hview].
Defined.

(** C3, as stated, fails: [visualize_t1], a loading entry point, is given a
    path that does not exist and returns normally, no exception raised. *)
Lemma visualize_t1_missing_file_does_not_raise :
  disk (empty_world : world (@recording silent_viewers)) !! "absent.nii.gz" = None
  /\ fst (visualize_t1 (viewers := silent_viewers) "absent.nii.gz" empty_world) = Ok tt
  /\ is_FileNotFoundError
       (fst (visualize_t1 (viewers := silent_viewers) "absent.nii.gz" empty_world)) = false.
Proof. repeat split. Qed.

(** [load_nifti] of surface_reconstruction.py makes no existence check; on a
    disk without the volume its script stops at the next value check and
    reports missing scalars. *)
Example surface_reconstruction_without_volume :
  SurfaceReconstruction.main (vtk := sample_filters) empty_world
  = (Ok tt, World ["[ERROR] [ERROR] Segmented data contains no scalars!"] ∅).
Proof. reflexivity. Qed.

End MissingFileFacts.

(** ** surface_reconstruction.py *)

Section SurfaceReconstructionFacts.
Import VTK SurfaceReconstruction.
Context {vtk : Filters}.

(** C6: [generate_surface] raises the "no surface" [ValueError] exactly when
    the marching-cubes output has no points, and returns that output when it
    has some. *)
Theorem generate_surface_raises_iff_no_points
    (threshold : vtkImageThreshold) (isovalue : Q) :
  (generate_surface threshold isovalue
     = Raise (ValueError "[ERROR] No surface was generated! Check thresholds or isovalue.")
   <-> GetNumberOfPoints (MarchingCubes (threshold_output threshold) isovalue) = 0%nat)
  /\ (GetNumberOfPoints (MarchingCubes (threshold_output threshold) isovalue) <> 0%nat ->
      generate_surface threshold isovalue
        = Ok (MarchingCubes (threshold_output threshold) isovalue)).
Proof.
  unfold generate_surface.
  destruct (Nat.eqb_spec
              (GetNumberOfPoints (MarchingCubes (threshold_output threshold) isovalue)) 0)
    as [Hzero | Hsome].
  - split; [split; [intros _; exact Hzero | reflexivity] | intros Hne; contradiction].
  - split; [split; [discriminate | intros Hzero; contradiction] | reflexivity].
Qed.


End SurfaceReconstructionFacts.

Section SurfaceReconstructionWitnesses.
Import VTK SurfaceReconstruction.

Lemma generate_surface_raises_iff_no_points_witness :
  GetNumberOfPoints
    (MarchingCubes (Filters := sample_filters)
       (threshold_output (segment_data (NiftiReader "fmri.nii.gz" sample_fmri) 30 60))
       (6 # 10)) <> 0%nat
  /\ generate_surface (vtk := sample_filters)
       (segment_data (NiftiReader "fmri.nii.gz" sample_fmri) 30 60) (6 # 10)
     = Ok (MarchingCubes (Filters := sample_filters)
             (threshold_output (segment_data (NiftiReader "fmri.nii.gz" sample_fmri) 30 60))
             (6 # 10)).
Proof.
  split; [vm_compute; discriminate |].
  apply (generate_surface_raises_iff_no_points (vtk := sample_filters)).
  vm_compute; discriminate.
Defined.


End SurfaceReconstructionWitnesses.

(** ** map_fmri_and_brain.py *)

Section MapFmriFacts.
Import VTK MapFmriAndBrain.
Context {vtk : Filters}.

Lemma interpolated_value_with_scalars fmri_output fmri_data surface_point :
  interpolated_value fmri_output (Some fmri_data) surface_point
  = Ok (nearest_value fmri_output fmri_data surface_point).
Proof.
  unfold interpolated_value, nearest_value.
  destruct (FindClosestPoint fmri_output surface_point) as [idx |]; [| reflexivity].
  destruct (GetTuple1 fmri_data idx); reflexivity.
Qed.

Lemma map_points_with_scalars fmri_output fmri_data surface_points :
  forall scalars,
    map_points fmri_output (Some fmri_data) surface_points scalars
    = Ok (scalars ++ map (nearest_value fmri_output fmri_data) surface_points)%list.
Proof.
  induction surface_points as [| surface_point rest IH]; intros scalars; simpl.
  - rewrite app_nil_r. reflexivity.
  - rewrite interpolated_value_with_scalars, IH, <- app_assoc. reflexivity.
Qed.


End MapFmriFacts.

Section MapFmriWitnesses.
Import VTK MapFmriAndBrain.


(** On the sample grid the three surface points receive 7, 45 and 45. *)
Example map_fmri_to_surface_sample :
  map_fmri_to_surface (vtk := sample_filters)
    (NiftiReader "fmri.nii.gz" sample_fmri) sample_surface
  = Ok (SetScalars (DataArray "fMRI Activations" [7; 45; 45]%Q) sample_surface).
Proof. vm_compute. reflexivity. Qed.

End MapFmriWitnesses.

(** ** Thresholding *)

Section SegmentationFacts.
Import VTK.
Local Open Scope Q_scope.

Lemma binary_mask_cases (lower_threshold upper_threshold v : Q) :
  (within lower_threshold upper_threshold v /\ binary_mask lower_threshold upper_threshold v = 1)
  \/ (~ within lower_threshold upper_threshold v
      /\ binary_mask lower_threshold upper_threshold v = 0).
Proof.
  unfold binary_mask, within.
  destruct (Qle_bool lower_threshold v) eqn:Hlow;
    destruct (Qle_bool v upper_threshold) eqn:Hup; simpl.
  - left. split; [split; apply Qle_bool_iff; assumption | reflexivity].
  - right. split; [| reflexivity].
    intros [_ H]. apply Qle_bool_iff in H. congruence.
  - right. split; [| reflexivity].
    intros [H _]. apply Qle_bool_iff in H. congruence.
  - right. split; [| reflexivity].
    intros [H _]. apply Qle_bool_iff in H. congruence.
Qed.

(** C2, as the code has it: both segmentation functions turn the scalars of
    the volume into a binary mask, 1 where the voxel lies within the closed
    interval between the thresholds and 0 elsewhere; every output scalar is
    1 or 0. *)
Theorem segmentation_output_is_binary_mask
    (reader : vtkNIFTIImageReader) (lower_threshold upper_threshold : Q)
    (input : vtkDataArray) :
  image_scalars (reader_output reader) = Some input ->
  image_scalars
    (threshold_output (SurfaceReconstruction.segment_data reader lower_threshold upper_threshold))
    = Some (DataArray (array_name input)
              (map (binary_mask lower_threshold upper_threshold) (values input)))
  /\ image_scalars
       (threshold_output
          (AlignBrainT1Surface.segment_t1_image reader lower_threshold upper_threshold))
     = Some (DataArray (array_name input)
               (map (binary_mask lower_threshold upper_threshold) (values input)))
  /\ Forall (fun v => v = 1 \/ v = 0)
       (map (binary_mask lower_threshold upper_threshold) (values input))
  /\ Forall (fun v =>
               (within lower_threshold upper_threshold v
                /\ binary_mask lower_threshold upper_threshold v = 1)
               \/ (~ within lower_threshold upper_threshold v
                   /\ binary_mask lower_threshold upper_threshold v = 0))
       (values input).
Proof.
  intros Hinput.
  split; [| split; [| split]].
  - unfold threshold_output, SurfaceReconstruction.segment_data. simpl.
    rewrite Hinput. reflexivity.
  - unfold threshold_output, AlignBrainT1Surface.segment_t1_image. simpl.
    rewrite Hinput. reflexivity.
  - apply List.Forall_forall. intros v Hv. apply in_map_iff in Hv.
    destruct Hv as (x & <- & _).
    destruct (binary_mask_cases lower_threshold upper_threshold x) as [[_ ->] | [_ ->]];
      [left | right]; reflexivity.
  - apply List.Forall_forall. intros v _. apply binary_mask_cases.
Qed.

Lemma segmentation_output_is_binary_mask_witness :
  image_scalars (reader_output (NiftiReader "fmri.nii.gz" sample_fmri))
    = Some (DataArray "scalars" [7; 45])
  /\ image_scalars
       (threshold_output
          (SurfaceReconstruction.segment_data (NiftiReader "fmri.nii.gz" sample_fmri) 30 60))
     = Some (DataArray (array_name (DataArray "scalars" [7; 45]))
               (map (binary_mask 30 60) (values (DataArray "scalars" [7; 45])))).
Proof.
  split; [reflexivity |].
  apply (segmentation_output_is_binary_mask
           (NiftiReader "fmri.nii.gz" sample_fmri) 30 60 (DataArray "scalars" [7; 45])).
  reflexivity.
Defined.

(** C2, as stated, fails: with thresholds 30 and 60 the voxels 7 and 45 come
    out as 0 and 1, and neither lies between 30 and 60. *)
Lemma segmentation_output_outside_thresholds :
  image_scalars
    (threshold_output
       (SurfaceReconstruction.segment_data (NiftiReader "fmri.nii.gz" sample_fmri) 30 60))
    = Some (DataArray "scalars" [0; 1])
  /\ image_scalars
       (threshold_output
          (AlignBrainT1Surface.segment_t1_image (NiftiReader "fmri.nii.gz" sample_fmri) 30 60))
     = Some (DataArray "scalars" [0; 1])
  /\ ~ within 30 60 0
  /\ ~ within 30 60 1.
Proof.
  split; [reflexivity | split; [reflexivity |]].
  split; intros [H _]; vm_compute in H; apply H; reflexivity.
Qed.

End SegmentationFacts.

(** ** Missing scalar data *)

Section MissingScalarsFacts.
Import VTK MapFmriAndBrain.

(** C5, as the code has it: [load_fmri_image] raises a [ValueError] when the
    image it loaded has no scalar point data, [calculate_dynamic_isovalue]
    raises a [ValueError] when the segmented data has no scalars, and the
    entry points of the two scripts catch it, print its message and stop,
    nothing written; [visualize_fmri_on_surface], called without a mapper on
    a surface without scalars, tests for them and goes on with the default
    scalar range. *)
Theorem missing_scalars_handling (vtk : Filters)
    (path : string) (w : world vtk_file) (volume : vtkImageData)
    (threshold : vtkImageThreshold) (surface_polydata : vtkPolyData) :
  disk w !! path = Some (File (NiftiVolume volume)) ->
  image_scalars volume = None ->
  image_scalars (threshold_output threshold) = None ->
  poly_scalars surface_polydata = None ->
  load_fmri_image path w
    = (Raise (ValueError "[ERROR] fMRI image does not contain scalar data."), w)
  /\ SurfaceReconstruction.calculate_dynamic_isovalue threshold
     = Raise (ValueError "[ERROR] Segmented data contains no scalars!")
  /\ (path = fmri_path ->
      main w
      = (Ok tt,
         World (stdout w ++ ["[ERROR] [ERROR] fMRI image does not contain scalar data."])
           (disk w)))
  /\ (path = SurfaceReconstruction.file_path ->
      SurfaceReconstruction.main w
      = (Ok tt,
         World (stdout w ++ ["[ERROR] [ERROR] Segmented data contains no scalars!"])
           (disk w)))
  /\ visualize_fmri_on_surface surface_polydata None
     = Ok (Actor (new_vtkPolyDataMapper surface_polydata) 1).
Proof.
  intros Hfile Hvolume Hthreshold Hsurface.
  assert (Hload : load_fmri_image path w
                  = (Raise (ValueError "[ERROR] fMRI image does not contain scalar data."), w)).
  { unfold load_fmri_image, bind.
    rewrite (os_path_exists_file _ _ _ Hfile). cbn [negb].
    unfold read_nifti. rewrite Hfile. cbn [reader_output]. rewrite Hvolume. reflexivity. }
  split; [exact Hload | split; [| split; [| split]]].
  - unfold SurfaceReconstruction.calculate_dynamic_isovalue. rewrite Hthreshold. reflexivity.
  - intros ->. unfold main, try_except, bind. rewrite Hload. reflexivity.
  - intros ->. unfold SurfaceReconstruction.main, try_except, bind, lift,
      SurfaceReconstruction.load_nifti, read_nifti.
    rewrite Hfile.
    unfold SurfaceReconstruction.calculate_dynamic_isovalue, threshold_output.
    cbn [SurfaceReconstruction.segment_data threshold_input reader_output
         new_vtkImageThreshold ThresholdBetween ReplaceInOn ReplaceOutOn
         SetInValue SetOutValue image_scalars].
    rewrite Hvolume. reflexivity.
  - unfold visualize_fmri_on_surface. rewrite Hsurface. reflexivity.
Qed.

Lemma missing_scalars_handling_witness :
  (disk scalarless_world !! fmri_path = Some (File (NiftiVolume empty_image_data))
   /\ image_scalars empty_image_data = None
   /\ image_scalars
        (threshold_output
           (SurfaceReconstruction.segment_data (NiftiReader fmri_path empty_image_data) 30 60))
      = None
   /\ poly_scalars sample_surface = None)
  /\ load_fmri_image fmri_path scalarless_world
     = (Raise (ValueError "[ERROR] fMRI image does not contain scalar data."),
        scalarless_world)
  /\ SurfaceReconstruction.calculate_dynamic_isovalue (vtk := sample_filters)
       (SurfaceReconstruction.segment_data (NiftiReader fmri_path empty_image_data) 30 60)
     = Raise (ValueError "[ERROR] Segmented data contains no scalars!")
  /\ main (vtk := sample_filters) scalarless_world
     = (Ok tt,
        World (stdout scalarless_world
               ++ ["[ERROR] [ERROR] fMRI image does not contain scalar data."])
          (disk scalarless_world))
  /\ visualize_fmri_on_surface (vtk := sample_filters) sample_surface None
     = Ok (Actor (new_vtkPolyDataMapper sample_surface) 1).
Proof.
  split; [repeat split |].
  destruct (missing_scalars_handling sample_filters fmri_path scalarless_world
              empty_image_data
              (SurfaceReconstruction.segment_data (NiftiReader fmri_path empty_image_data) 30 60)
              sample_surface eq_refl eq_refl eq_refl eq_refl)
    as (Hload & Hiso & Hmain & _ & Hshow).
  split; [exact Hload | split; [exact Hiso | split; [exact (Hmain eq_refl) | exact Hshow]]].
Defined.

(** C5, as stated, fails: the sample surface has no point scalars;
    [visualize_fmri_on_surface] reads them and returns normally, and
    [setup_surface] and [enhanced_color_mapping] read them with no check at
    all, so that what escapes is Python's [AttributeError], not a
    [ValueError]. *)
Lemma scalar_readers_without_value_check :
  poly_scalars sample_surface = None
  /\ disk (World [] sample_disk) !! "surface.vtk"
     = Some (File (Written vtkPolyDataWriter sample_surface))
  /\ is_Ok (visualize_fmri_on_surface (vtk := sample_filters) sample_surface None) = true
  /\ is_ValueError (visualize_fmri_on_surface (vtk := sample_filters) sample_surface None)
     = false
  /\ fst (GuiVisualization.setup_surface (vtk := sample_filters)
            "surface.vtk" (World [] sample_disk))
     = Raise (AttributeError "'NoneType' object has no attribute 'GetRange'")
  /\ enhanced_color_mapping (vtk := sample_filters) sample_surface
     = Raise (AttributeError "'NoneType' object has no attribute 'GetRange'").
Proof. repeat split. Qed.

End MissingScalarsFacts.

(** ** validate_t1.py *)

Section ValidateT1Facts.
Import ValidateT1.
Local Open Scope Q_scope.


















(** Without the precondition the division is by zero: all intensities equal
    and outside the bounds. *)
Example constant_volume_divides_by_zero :
  check_and_normalize_intensity constant_volume 0 255
  = Raise (ZeroDivisionError "invalid value encountered in divide").
Proof. reflexivity. Qed.

(** The volume is stored upside down and fails the orientation check as it
    is; [main], which checks the normalized image, reports success. *)
Example main_on_flipped_volume :
  check_orientation flipped_volume "axial" = Ok false
  /\ main (fun _ => true) flipped_world = (Ok tt, World [success_line] (disk flipped_world)).
Proof. split; vm_compute; reflexivity. Qed.

End ValidateT1Facts.

(** * Further properties *)

(** ** map_fmri_to_surface and enhanced_color_mapping *)

Section MapFmriMore.
Import VTK MapFmriAndBrain.
Context {vtk : Filters}.




Lemma map_fmri_to_surface_closed_form fmri_reader surface_polydata fmri_data :
  image_scalars (reader_output fmri_reader) = Some fmri_data ->
  map_fmri_to_surface fmri_reader surface_polydata
  = Ok (SetScalars
          (DataArray "fMRI Activations"
             (map (nearest_value (reader_output fmri_reader) fmri_data)
                (poly_points surface_polydata)))
          surface_polydata).
Proof.
  intros Hdata. unfold map_fmri_to_surface.
  rewrite Hdata, map_points_with_scalars. reflexivity.
Qed.

(** X2: mapping is idempotent and forgets what the surface carried: mapping
    the mapped surface again, or a surface that already had scalars, gives
    the same result. *)
Theorem map_fmri_to_surface_idempotent
    (fmri_reader : vtkNIFTIImageReader) (surface_polydata : vtkPolyData)
    (fmri_data : vtkDataArray) :
  image_scalars (reader_output fmri_reader) = Some fmri_data ->
  exists mapped : vtkPolyData,
    map_fmri_to_surface fmri_reader surface_polydata = Ok mapped
    /\ map_fmri_to_surface fmri_reader mapped = Ok mapped
    /\ forall previous : vtkDataArray,
         map_fmri_to_surface fmri_reader (SetScalars previous surface_polydata) = Ok mapped.
Proof.
  intros Hdata. eexists. split; [apply (map_fmri_to_surface_closed_form _ _ _ Hdata) |].
  split; [| intros previous];
    rewrite (map_fmri_to_surface_closed_form _ _ _ Hdata); reflexivity.
Qed.


Local Open Scope Q_scope.

(** X4: [enhanced_color_mapping] puts the blue point at the least scalar,
    the red point at nine tenths of the greatest and the green point midway
    between them, and hands the mapper the range from the blue to the red
    point; when nine tenths of the greatest scalar is below the least one,
    that range is upside down. *)
Theorem enhanced_color_mapping_control_points
    (surface_polydata : vtkPolyData) (scalars : vtkDataArray) (min_value max_value : Q) :
  poly_scalars surface_polydata = Some scalars ->
  GetRange scalars = (min_value, max_value) ->
  enhanced_color_mapping surface_polydata
  = Ok (Mapper surface_polydata
          (Some [ (min_value, (0, 0, 1));
                  ((min_value + max_value * (9 # 10)) * (5 # 10), (0, 1, 0));
                  (max_value * (9 # 10), (1, 0, 0)) ])
          (min_value, max_value * (9 # 10)))
  /\ (min_value <= max_value * (9 # 10) ->
      min_value <= (min_value + max_value * (9 # 10)) * (5 # 10)
      /\ (min_value + max_value * (9 # 10)) * (5 # 10) <= max_value * (9 # 10))
  /\ (max_value * (9 # 10) < min_value ->
      max_value * (9 # 10) < (min_value + max_value * (9 # 10)) * (5 # 10)
      /\ (min_value + max_value * (9 # 10)) * (5 # 10) < min_value).
Proof.
  intros Hscalars Hrange. split; [| split].
  - unfold enhanced_color_mapping, scalars_method. rewrite Hscalars, Hrange. reflexivity.
  - intros H. split; lra.
  - intros H. split; lra.
Qed.

End MapFmriMore.

Section MapFmriMoreWitnesses.
Import VTK MapFmriAndBrain Samples.
Local Open Scope Q_scope.


Lemma map_fmri_to_surface_idempotent_witness :
  image_scalars (reader_output (NiftiReader "fmri.nii.gz" sample_fmri))
    = Some (DataArray "scalars" [7; 45])
  /\ exists mapped : vtkPolyData,
       map_fmri_to_surface (vtk := sample_filters)
         (NiftiReader "fmri.nii.gz" sample_fmri) sample_surface = Ok mapped
       /\ map_fmri_to_surface (vtk := sample_filters)
            (NiftiReader "fmri.nii.gz" sample_fmri) mapped = Ok mapped
       /\ forall previous : vtkDataArray,
            map_fmri_to_surface (vtk := sample_filters)
              (NiftiReader "fmri.nii.gz" sample_fmri) (SetScalars previous sample_surface)
            = Ok mapped.
Proof.
  split; [reflexivity |].
  apply (map_fmri_to_surface_idempotent (vtk := sample_filters)
           (NiftiReader "fmri.nii.gz" sample_fmri) sample_surface
           (DataArray "scalars" [7; 45])).
  reflexivity.
Defined.


Lemma enhanced_color_mapping_control_points_witness :
  (poly_scalars sample_mapped = Some (DataArray "fMRI Activations" [7; 45; 45])
   /\ GetRange (Filters := sample_filters) (DataArray "fMRI Activations" [7; 45; 45])
      = (7, 45))
  /\ enhanced_color_mapping (vtk := sample_filters) sample_mapped
     = Ok (Mapper sample_mapped
             (Some [ (7, (0, 0, 1));
                     ((7 + 45 * (9 # 10)) * (5 # 10), (0, 1, 0));
                     (45 * (9 # 10), (1, 0, 0)) ])
             (7, 45 * (9 # 10))).
Proof.
  split; [split; reflexivity |].
  apply (enhanced_color_mapping_control_points (vtk := sample_filters) sample_mapped
           (DataArray "fMRI Activations" [7; 45; 45]) 7 45); reflexivity.
Defined.

End MapFmriMoreWitnesses.

(** ** The entry points of the VTK scripts *)

Section VtkLoaders.
Import VTK.


Lemma read_polydata_world (file_path : string) (w : world vtk_file) :
  exists pd, read_polydata file_path w = (Ok pd, w).
Proof.
  unfold read_polydata.
  destruct (disk w !! file_path) as [[[img | [] pd] |] |]; eexists; reflexivity.
Qed.



End VtkLoaders.

Section VtkEntryPoints.
Import VTK.
Context {vtk : Filters}.





End VtkEntryPoints.

Section VtkPipeline.
Import VTK.
Context {vtk : Filters}.
Local Open Scope Q_scope.




End VtkPipeline.

(** ** The viewer and the chain of the VTK scripts *)

Section GuiFacts.
Import VTK GuiVisualization.
Context {vtk : Filters}.
Local Open Scope Q_scope.

Lemma setup_surface_cases (path : string) (w : world vtk_file) :
  ((forall pd, disk w !! path <> Some (File (Written vtkPolyDataWriter pd))) ->
   setup_surface path w
   = (Raise (AttributeError "'NoneType' object has no attribute 'GetRange'"), w))
  /\ (forall pd,
        disk w !! path = Some (File (Written vtkPolyDataWriter pd)) ->
        (poly_scalars pd = None ->
         setup_surface path w
         = (Raise (AttributeError "'NoneType' object has no attribute 'GetRange'"), w))
        /\ (forall scalars,
              poly_scalars pd = Some scalars ->
              setup_surface path w
              = (Ok (Actor (Mapper pd None (GetRange scalars)) (5 # 10)), w))).
Proof.
  split.
  - intros Hnone. unfold setup_surface, bind, lift, read_polydata.
    destruct (disk w !! path) as [[[img | [] pd] |] |] eqn:E; try reflexivity.
    exfalso. apply (Hnone pd). reflexivity.
  - intros pd Hfile. unfold setup_surface, bind, lift, read_polydata. rewrite Hfile.
    split; [intros -> | intros scalars ->]; reflexivity.
Qed.

(** X8: [setup_surface] has no check of its own: a path that holds no
    polydata file (absent, a directory, a volume, an STL export) and a
    polydata file without point scalars both end in the [AttributeError] of
    [GetScalars().GetRange()]; on a surface with scalars the actor gets their
    range and opacity 0.5.  The disk and the console are left as they were. *)
Theorem setup_surface_outcomes (path : string) (w : world vtk_file) :
  ((forall pd, disk w !! path <> Some (File (Written vtkPolyDataWriter pd))) ->
   setup_surface path w
   = (Raise (AttributeError "'NoneType' object has no attribute 'GetRange'"), w))
  /\ (forall pd,
        disk w !! path = Some (File (Written vtkPolyDataWriter pd)) ->
        (poly_scalars pd = None ->
         setup_surface path w
         = (Raise (AttributeError "'NoneType' object has no attribute 'GetRange'"), w))
        /\ (forall scalars,
              poly_scalars pd = Some scalars ->
              setup_surface path w
              = (Ok (Actor (Mapper pd None (GetRange scalars)) (5 # 10)), w))).
Proof. exact (setup_surface_cases path w). Qed.

(** X9: for every value the opacity slider can take (0 to 100)
    [update_opacity] sets an opacity between 0 and 1 and leaves the mapper
    of the actor alone; at the slider's initial value it gives the opacity
    the actor starts with. *)
Theorem update_opacity_within_unit_interval (app : BrainVisualizerApp) (value : Z) :
  (0 <= value <= 100)%Z ->
  0 <= opacity (surface_actor (update_opacity app value))
  /\ opacity (surface_actor (update_opacity app value)) <= 1
  /\ actor_mapper (surface_actor (update_opacity app value)) = actor_mapper (surface_actor app)
  /\ (forall path w app0 w0,
        new_BrainVisualizerApp path w = (Ok app0, w0) ->
        opacity (surface_actor (update_opacity app0 (opacity_slider app0)))
        == opacity (surface_actor app0)).
Proof.
  intros [Hlow Hup]. cbn [update_opacity surface_actor opacity actor_mapper].
  split; [| split; [| split; [reflexivity |]]].
  - apply Qle_shift_div_l; [reflexivity |]. rewrite Qmult_0_l.
    change 0 with (inject_Z 0). rewrite <- Zle_Qle. exact Hlow.
  - apply Qle_shift_div_r; [reflexivity |]. rewrite Qmult_1_l.
    change 100 with (inject_Z 100). rewrite <- Zle_Qle. exact Hup.
  - intros path w app0 w0. unfold new_BrainVisualizerApp, setup_surface, bind, lift,
      scalars_method.
    destruct (read_polydata_world path w) as (pd & ->).
    destruct (poly_scalars pd); cbn; [| discriminate].
    intros [= <- _]. reflexivity.
Qed.


End GuiFacts.

Section ReconstructionThenMapping.
Import VTK.
Context {vtk : Filters}.
Local Open Scope Q_scope.


End ReconstructionThenMapping.

Section VtkPipelineWitnesses.
Import VTK Samples.
Local Open Scope Q_scope.



Lemma setup_surface_outcomes_witness :
  (forall pd, disk (empty_world : world vtk_file) !! GuiVisualization.mapped_fmri_to_surface
              <> Some (File (Written vtkPolyDataWriter pd)))
  /\ GuiVisualization.setup_surface (vtk := sample_filters)
       GuiVisualization.mapped_fmri_to_surface empty_world
     = (Raise (AttributeError "'NoneType' object has no attribute 'GetRange'"), empty_world).
Proof.
  assert (Habsent : forall pd,
             disk (empty_world : world vtk_file) !! GuiVisualization.mapped_fmri_to_surface
             <> Some (File (Written vtkPolyDataWriter pd))).
  { intros pd. discriminate. }
  split; [exact Habsent |].
  apply (setup_surface_outcomes (vtk := sample_filters)
           GuiVisualization.mapped_fmri_to_surface empty_world).
  exact Habsent.
Defined.

Lemma update_opacity_within_unit_interval_witness :
  (0 <= 80 <= 100)%Z
  /\ 0 <= opacity
            (GuiVisualization.surface_actor
               (GuiVisualization.update_opacity
                  (GuiVisualization.App "surface.vtk" 50
                     (Actor (new_vtkPolyDataMapper sample_mapped) (5 # 10))) 80))
  /\ opacity
       (GuiVisualization.surface_actor
          (GuiVisualization.update_opacity
             (GuiVisualization.App "surface.vtk" 50
                (Actor (new_vtkPolyDataMapper sample_mapped) (5 # 10))) 80)) <= 1.
Proof.
  assert (Hvalue : (0 <= 80 <= 100)%Z) by (split; discriminate).
  split; [exact Hvalue |].
  destruct (update_opacity_within_unit_interval (vtk := sample_filters)
              (GuiVisualization.App "surface.vtk" 50
                 (Actor (new_vtkPolyDataMapper sample_mapped) (5 # 10))) 80 Hvalue)
    as (Hlow & Hup & _).
  split; [exact Hlow | exact Hup].
Defined.


End VtkPipelineWitnesses.

(** ** Segmentation, the dynamic isovalue and the export *)

Section SegmentationMore.
Import VTK SurfaceReconstruction.
Context {vtk : Filters}.
Local Open Scope Q_scope.

(** X12: [segment_data] and [segment_t1_image] give the same output on every
    reader and threshold pair (the explicit [ReplaceInOn] and [ReplaceOutOn]
    of the first add nothing to [SetInValue] and [SetOutValue]); the output
    keeps the grid points, has scalars exactly when the input has, and its
    mask has the name and the length of the input array. *)
Theorem segmentation_functions_agree
    (reader : vtkNIFTIImageReader) (lower_threshold upper_threshold : Q) :
  let output :=
    threshold_output (SurfaceReconstruction.segment_data reader lower_threshold upper_threshold) in
  output
  = threshold_output
      (AlignBrainT1Surface.segment_t1_image reader lower_threshold upper_threshold)
  /\ image_points output = image_points (reader_output reader)
  /\ (image_scalars output = None <-> image_scalars (reader_output reader) = None)
  /\ (forall input mask,
        image_scalars (reader_output reader) = Some input ->
        image_scalars output = Some mask ->
        array_name mask = array_name input
        /\ length (values mask) = length (values input)).
Proof.
  cbv zeta. split; [reflexivity | split; [reflexivity | split]].
  - unfold threshold_output. cbn. destruct (image_scalars (reader_output reader)); cbn.
    + split; discriminate.
    + split; reflexivity.
  - intros input mask Hinput. unfold threshold_output. cbn. rewrite Hinput. cbn.
    intros [= <-]. cbn. split; [reflexivity | apply length_map].
Qed.

Lemma mask_member_cases lo hi (input : list Q) (v : Q) :
  In v (map (binary_mask lo hi) input) ->
  (v = 1 /\ exists x, In x input /\ within lo hi x)
  \/ (v = 0 /\ exists x, In x input /\ ~ within lo hi x).
Proof.
  intros Hv. apply in_map_iff in Hv. destruct Hv as (x & <- & Hx).
  destruct (binary_mask_cases lo hi x) as [[Hin ->] | [Hout ->]]; [left | right];
    (split; [reflexivity | exists x; split; assumption]).
Qed.

(** X13: on the mask of [segment_data], with [GetRange] giving the least and
    the greatest value of the mask, the dynamic isovalue is 0.6 when the
    volume has voxels inside and outside the thresholds, 1.2 (above every
    mask value) when all voxels are inside, and 0 when all are outside. *)
Theorem dynamic_isovalue_of_mask
    (reader : vtkNIFTIImageReader) (lower_threshold upper_threshold : Q)
    (input : vtkDataArray) :
  image_scalars (reader_output reader) = Some input ->
  is_range (map (binary_mask lower_threshold upper_threshold) (values input))
    (GetRange (DataArray (array_name input)
                 (map (binary_mask lower_threshold upper_threshold) (values input)))) ->
  exists isovalue : Q,
    calculate_dynamic_isovalue (segment_data reader lower_threshold upper_threshold)
      = Ok isovalue
    /\ (Exists (within lower_threshold upper_threshold) (values input) ->
        Exists (fun v => ~ within lower_threshold upper_threshold v) (values input) ->
        isovalue == 6 # 10)
    /\ (Forall (within lower_threshold upper_threshold) (values input) ->
        isovalue == 12 # 10)
    /\ (Forall (fun v => ~ within lower_threshold upper_threshold v) (values input) ->
        isovalue == 0).
Proof.
  intros Hinput (Hmin & Hmax & Hbounds).
  set (mask := map (binary_mask lower_threshold upper_threshold) (values input)) in *.
  set (range := GetRange (DataArray (array_name input) mask)) in *.
  exists ((fst range + snd range) * (6 # 10)). split.
  { unfold calculate_dynamic_isovalue, threshold_output.
    cbn [segment_data threshold_input reader_output new_vtkImageThreshold ThresholdBetween
         ReplaceInOn ReplaceOutOn SetInValue SetOutValue image_scalars].
    rewrite Hinput. reflexivity. }
  rewrite List.Forall_forall in Hbounds.
  assert (Hone_zero : ~ (1 <= 0)) by (apply Qlt_not_le; reflexivity).
  assert (Hzero_in : forall z, In z (values input) ->
                       ~ within lower_threshold upper_threshold z -> In 0 mask).
  { intros z Hz Hzout. apply in_map_iff. exists z. split; [| exact Hz].
    destruct (binary_mask_cases lower_threshold upper_threshold z) as [[H _] | [_ H]];
      [contradiction | exact H]. }
  assert (Hone_in : forall z, In z (values input) ->
                      within lower_threshold upper_threshold z -> In 1 mask).
  { intros z Hz Hzin. apply in_map_iff. exists z. split; [| exact Hz].
    destruct (binary_mask_cases lower_threshold upper_threshold z) as [[_ H] | [H _]];
      [exact H | contradiction]. }
  destruct (mask_member_cases _ _ _ _ Hmin) as [[Hlow (x & Hx & Hxin)] | [Hlow (x & Hx & Hxout)]];
    destruct (mask_member_cases _ _ _ _ Hmax) as [[Hup (y & Hy & Hyin)] | [Hup (y & Hy & Hyout)]];
    rewrite Hlow, Hup in *.
  - (* least 1, greatest 1: no voxel outside *)
    split; [| split; [reflexivity |]].
    + intros _ Hsome. apply List.Exists_exists in Hsome. destruct Hsome as (z & Hz & Hzout).
      exfalso. apply Hone_zero. apply (Hbounds 0 (Hzero_in z Hz Hzout)).
    + intros Hall. rewrite List.Forall_forall in Hall. exfalso. apply (Hall x Hx). exact Hxin.
  - (* least 1, greatest 0: impossible *)
    exfalso. apply Hone_zero. apply (Hbounds 1 Hmin).
  - (* least 0, greatest 1 *)
    split; [reflexivity | split].
    + intros Hall. rewrite List.Forall_forall in Hall. exfalso. apply Hxout, Hall, Hx.
    + intros Hall. rewrite List.Forall_forall in Hall. exfalso. apply (Hall y Hy). exact Hyin.
  - (* least 0, greatest 0: no voxel inside *)
    split; [| split; [| reflexivity]].
    + intros Hsome _. apply List.Exists_exists in Hsome. destruct Hsome as (z & Hz & Hzin).
      exfalso. apply Hone_zero. apply (Hbounds 1 (Hone_in z Hz Hzin)).
    + intros Hall. rewrite List.Forall_forall in Hall. exfalso. apply Hxout, Hall, Hx.
Qed.
End SegmentationMore.

Section ExportMore.
Import VTK SurfaceReconstruction.

Lemma lower_upper_ascii (c : ascii) : lower_ascii (upper_ascii c) = lower_ascii c.
Proof. destruct c as [[] [] [] [] [] [] [] []]; reflexivity. Qed.

Lemma lower_lower_ascii (c : ascii) : lower_ascii (lower_ascii c) = lower_ascii c.
Proof. destruct c as [[] [] [] [] [] [] [] []]; reflexivity. Qed.

Lemma lower_upper (s : string) : lower (upper s) = lower s.
Proof. induction s as [| c s IH]; simpl; [reflexivity |]. rewrite lower_upper_ascii, IH. reflexivity. Qed.

Lemma lower_lower (s : string) : lower (lower s) = lower s.
Proof. induction s as [| c s IH]; simpl; [reflexivity |]. rewrite lower_lower_ascii, IH. reflexivity. Qed.

(** X14: [export_surface] does not depend on the case of the format: the
    upper-cased and the lower-cased format give the same outcome as the
    format itself.  It prints nothing (beyond its information lines) and
    changes no path other than [file_path]. *)
Theorem export_surface_ignores_case
    (polydata : vtkPolyData) (file_path file_format : string) (w : world vtk_file) :
  export_surface polydata file_path (upper file_format) w
    = export_surface polydata file_path file_format w
  /\ export_surface polydata file_path (lower file_format) w
     = export_surface polydata file_path file_format w
  /\ stdout (snd (export_surface polydata file_path file_format w)) = stdout w
  /\ forall other : string,
       other <> file_path ->
       disk (snd (export_surface polydata file_path file_format w)) !! other
       = disk w !! other.
Proof.
  split; [| split; [| split]].
  - unfold export_surface. rewrite lower_upper. reflexivity.
  - unfold export_surface. rewrite lower_lower. reflexivity.
  - unfold export_surface, bind.
    destruct (String.eqb (lower file_format) "vtk"); [reflexivity |].
    destruct (String.eqb (lower file_format) "stl"); reflexivity.
  - intros other Hother. unfold export_surface, bind.
    destruct (String.eqb (lower file_format) "vtk");
      [cbn; apply lookup_insert_ne; congruence |].
    destruct (String.eqb (lower file_format) "stl");
      [cbn; apply lookup_insert_ne; congruence | reflexivity].
Qed.
End ExportMore.

Section SegmentationMoreWitnesses.
Import VTK SurfaceReconstruction Samples.
Local Open Scope Q_scope.

Lemma segmentation_functions_agree_witness :
  (image_scalars (reader_output (NiftiReader "fmri.nii.gz" sample_fmri))
   = Some (DataArray "scalars" [7; 45])
   /\ image_scalars
        (threshold_output (segment_data (NiftiReader "fmri.nii.gz" sample_fmri) 30 60))
      = Some (DataArray "scalars" [0; 1]))
  /\ array_name (DataArray "scalars" [0; 1]) = array_name (DataArray "scalars" [7; 45])
  /\ length (values (DataArray "scalars" [0; 1]))
     = length (values (DataArray "scalars" [7; 45])).
Proof.
  split; [split; reflexivity |].
  destruct (segmentation_functions_agree (NiftiReader "fmri.nii.gz" sample_fmri) 30 60)
    as (_ & _ & _ & Hmask).
  apply (Hmask (DataArray "scalars" [7; 45]) (DataArray "scalars" [0; 1])); reflexivity.
Defined.

Lemma dynamic_isovalue_of_mask_witness :
  (image_scalars (reader_output (NiftiReader "fmri.nii.gz" sample_fmri))
   = Some (DataArray "scalars" [7; 45])
   /\ is_range (map (binary_mask 30 60) (values (DataArray "scalars" [7; 45])))
        (GetRange (Filters := sample_filters)
           (DataArray (array_name (DataArray "scalars" [7; 45]))
              (map (binary_mask 30 60) (values (DataArray "scalars" [7; 45]))))))
  /\ exists isovalue : Q,
       calculate_dynamic_isovalue (vtk := sample_filters)
         (segment_data (NiftiReader "fmri.nii.gz" sample_fmri) 30 60) = Ok isovalue
       /\ (Exists (within 30 60) (values (DataArray "scalars" [7; 45])) ->
           Exists (fun v => ~ within 30 60 v) (values (DataArray "scalars" [7; 45])) ->
           isovalue == 6 # 10)
       /\ (Forall (within 30 60) (values (DataArray "scalars" [7; 45])) -> isovalue == 12 # 10)
       /\ (Forall (fun v => ~ within 30 60 v) (values (DataArray "scalars" [7; 45])) ->
           isovalue == 0).
Proof.
  assert (Hrange : is_range (map (binary_mask 30 60) (values (DataArray "scalars" [7; 45])))
                     (GetRange (Filters := sample_filters)
                        (DataArray (array_name (DataArray "scalars" [7; 45]))
                           (map (binary_mask 30 60) (values (DataArray "scalars" [7; 45])))))).
  { split; [left; reflexivity | split; [right; left; reflexivity |]].
    repeat constructor; discriminate. }
  split; [split; [reflexivity | exact Hrange] |].
  apply (dynamic_isovalue_of_mask (vtk := sample_filters)
           (NiftiReader "fmri.nii.gz" sample_fmri) 30 60 (DataArray "scalars" [7; 45])
           eq_refl Hrange).
Defined.

Lemma export_surface_ignores_case_witness :
  "other.vtk" <> "brain.vtk"
  /\ disk (snd (export_surface sample_surface "brain.vtk" "VTK" empty_world)) !! "other.vtk"
     = disk (empty_world : world vtk_file) !! "other.vtk".
Proof.
  assert (Hother : "other.vtk" <> "brain.vtk") by discriminate.
  split; [exact Hother |].
  destruct (export_surface_ignores_case sample_surface "brain.vtk" "VTK" empty_world)
    as (_ & _ & _ & Hframe).
  apply Hframe. exact Hother.
Defined.

End SegmentationMoreWitnesses.

(** ** validate_t1.py: normalization, orientation, entry point *)

Section ValidateT1More.
Import ValidateT1.
Local Open Scope Q_scope.














(** X17: [check_orientation] raises [ValueError] on every view other than
    "axial", "sagittal" and "coronal".  On an image built by
    [GetImageFromArray] from a three-dimensional array the three views are
    all found correct; from a two-dimensional array "sagittal" is correct
    and the other two views fail with [IndexError], the direction having
    four entries only. *)
Theorem check_orientation_outcomes (img : image) (view : string) :
  (view <> "axial" -> view <> "sagittal" -> view <> "coronal" ->
   check_orientation img view
   = Raise (ValueError "Unsupported view. Use: 'axial', 'sagittal', or 'coronal'"))
  /\ (forall arr : ndarray,
        length (shape arr) = 3%nat ->
        check_orientation (GetImageFromArray arr) "axial" = Ok true
        /\ check_orientation (GetImageFromArray arr) "sagittal" = Ok true
        /\ check_orientation (GetImageFromArray arr) "coronal" = Ok true)
  /\ (forall arr : ndarray,
        length (shape arr) = 2%nat ->
        check_orientation (GetImageFromArray arr) "axial"
        = Raise (IndexError "tuple index out of range")
        /\ check_orientation (GetImageFromArray arr) "sagittal" = Ok true
        /\ check_orientation (GetImageFromArray arr) "coronal"
           = Raise (IndexError "tuple index out of range")).
Proof.
  split; [| split].
  - intros Haxial Hsagittal Hcoronal. unfold check_orientation.
    apply String.eqb_neq in Haxial, Hsagittal, Hcoronal.
    rewrite Haxial, Hsagittal, Hcoronal. reflexivity.
  - intros arr Hdim. unfold check_orientation, GetDirection, GetImageFromArray.
    cbn [direction]. rewrite Hdim. repeat split.
  - intros arr Hdim. unfold check_orientation, GetDirection, GetImageFromArray.
    cbn [direction]. rewrite Hdim. repeat split.
Qed.




Lemma check_orientation_outcomes_witness :
  ("oblique" <> "axial" /\ "oblique" <> "sagittal" /\ "oblique" <> "coronal")
  /\ check_orientation flipped_volume "oblique"
     = Raise (ValueError "Unsupported view. Use: 'axial', 'sagittal', or 'coronal'").
Proof.
  split; [repeat split; discriminate |].
  apply (check_orientation_outcomes flipped_volume "oblique"); discriminate.
Defined.


End ValidateT1More.

(** ** preprocess_t1.py: intermediate images and the entry point *)

Section PreprocessMore.
Import PreprocessT1.
Context {sitk : SimpleITK}.








End PreprocessMore.

Section PreprocessThenValidate.
Import T1Pipeline.
Variables
  (GetPixelID : ValidateT1.image -> PreprocessT1.pixel_id)
  (Cast : ValidateT1.image -> PreprocessT1.pixel_id -> ValidateT1.image)
  (N4BiasFieldCorrection : ValidateT1.image -> ValidateT1.image)
  (RescaleIntensity : Q -> Q -> ValidateT1.image -> ValidateT1.image)
  (AdaptiveHistogramEqualization : ValidateT1.image -> ValidateT1.image)
  (Bilateral : ValidateT1.image -> Q -> Q -> ValidateT1.image).

Let sitk : PreprocessT1.SimpleITK :=
  sitk_on GetPixelID Cast N4BiasFieldCorrection RescaleIntensity
    AdaptiveHistogramEqualization Bilateral.

End PreprocessThenValidate.

(** ** visualize_validate.py: the entry point *)

Section VisualizeMore.
Import VisualizeValidate.
Context {viewers : Viewers}.

Lemma os_path_isfile_not_regular {F} (w : world F) path :
  ~ is_regular_file w path -> os_path_isfile path w = (Ok false, w).
Proof.
  intros H. unfold os_path_isfile.
  destruct (disk w !! path) as [[content |] |] eqn:E; try reflexivity.
  exfalso. apply H. exists content. exact E.
Qed.

Lemma visualize_not_regular (w : world recording) path :
  ~ is_regular_file w path ->
  visualize_t1 path w = (Ok tt, World (stdout w ++ ["[ERROR] File not found: " ++ path]) (disk w))
  /\ visualize_fmri path w = (Ok tt, World (stdout w ++ ["[ERROR] File not found: " ++ path]) (disk w))
  /\ visualize_eeg path w = (Ok tt, World (stdout w ++ ["[ERROR] File not found: " ++ path]) (disk w)).
Proof.
  intros H. unfold visualize_t1, visualize_fmri, visualize_eeg, validate_file, bind.
  rewrite (os_path_isfile_not_regular _ _ H). repeat split.
Qed.

Lemma for_each_not_regular (visualize : string -> Py recording unit) (paths : list string) :
  (forall (w : world recording) path,
     ~ is_regular_file w path ->
     visualize path w
     = (Ok tt, World (stdout w ++ ["[ERROR] File not found: " ++ path]) (disk w))) ->
  forall w : world recording,
    Forall (fun path => ~ is_regular_file w path) paths ->
    for_each paths visualize w
    = (Ok tt,
       World (stdout w ++ map (fun path => "[ERROR] File not found: " ++ path) paths)
         (disk w)).
Proof.
  intros Hvisualize.
  induction paths as [| path rest IH]; intros w Hall; cbn [for_each map].
  - unfold ret. rewrite app_nil_r. destruct w; reflexivity.
  - pose proof (List.Forall_inv Hall) as Hpath.
    pose proof (List.Forall_inv_tail Hall) as Hrest.
    unfold bind. rewrite (Hvisualize w path Hpath).
    rewrite (IH (World (stdout w ++ ["[ERROR] File not found: " ++ path]) (disk w)) Hrest).
    cbn [stdout disk]. rewrite <- app_assoc. reflexivity.
Qed.

(** X22: visualize_validate.py goes on after a file that is not there: a T1
    path that names no regular file costs one error line and the script
    continues with the fMRI and EEG files; when none of its six paths names
    a regular file it prints the six error lines in order, shows nothing
    (the outcome is the same for every viewer) and leaves the disk alone. *)
Theorem visualize_main_reports_and_goes_on (w : world recording) :
  (~ is_regular_file w T1_FILE ->
   main w
   = (for_each FMRI_FILES (fun fmri_file => visualize_fmri fmri_file) ;;
      for_each EEG_FILES (fun eeg_file => visualize_eeg eeg_file))
       (World (stdout w ++ ["[ERROR] File not found: " ++ T1_FILE]) (disk w)))
  /\ (Forall (fun path => ~ is_regular_file w path) (T1_FILE :: FMRI_FILES ++ EEG_FILES) ->
      main w
      = (Ok tt,
         World (stdout w
                ++ map (fun path => "[ERROR] File not found: " ++ path)
                     (T1_FILE :: FMRI_FILES ++ EEG_FILES))
           (disk w))).
Proof.
  assert (Hstart : ~ is_regular_file w T1_FILE ->
            main w
            = (for_each FMRI_FILES (fun fmri_file => visualize_fmri fmri_file) ;;
               for_each EEG_FILES (fun eeg_file => visualize_eeg eeg_file))
                (World (stdout w ++ ["[ERROR] File not found: " ++ T1_FILE]) (disk w))).
  { intros Ht1. unfold main. unfold bind at 1.
    destruct (visualize_not_regular w T1_FILE Ht1) as (-> & _ & _). reflexivity. }
  split; [exact Hstart |].
  intros Hall. pose proof (List.Forall_inv Hall) as Ht1.
  apply List.Forall_inv_tail, List.Forall_app in Hall. destruct Hall as [Hfmri Heeg].
  rewrite (Hstart Ht1). unfold bind.
  rewrite (for_each_not_regular (fun fmri_file => visualize_fmri fmri_file) FMRI_FILES);
    [| intros w' path H; apply (visualize_not_regular w' path H) | exact Hfmri].
  rewrite (for_each_not_regular (fun eeg_file => visualize_eeg eeg_file) EEG_FILES);
    [| intros w' path H; apply (visualize_not_regular w' path H) | exact Heeg].
  cbn [stdout disk]. rewrite List.map_cons, List.map_app, <- !app_assoc. reflexivity.
Qed.
End VisualizeMore.

Section PreprocessMoreWitnesses.
Import PreprocessT1 Samples.




End PreprocessMoreWitnesses.

Section VisualizeMoreWitnesses.
Import VisualizeValidate.

Lemma visualize_main_reports_and_goes_on_witness :
  ~ is_regular_file (empty_world : world (@recording silent_viewers)) T1_FILE
  /\ main (viewers := silent_viewers) empty_world
     = (for_each FMRI_FILES (fun fmri_file => visualize_fmri fmri_file) ;;
        for_each EEG_FILES (fun eeg_file => visualize_eeg eeg_file))
         (World ([] ++ ["[ERROR] File not found: " ++ T1_FILE]) ∅).
Proof.
  assert (Habsent : ~ is_regular_file (empty_world : world (@recording silent_viewers)) T1_FILE).
  { intros [content H]. discriminate. }
  split; [exact Habsent |].
  destruct (visualize_main_reports_and_goes_on (viewers := silent_viewers) empty_world)
    as (Hgoes_on & _).
  exact (Hgoes_on Habsent).
Defined.

End VisualizeMoreWitnesses.
